(** * chess_game.py: animation, game controller and engine hand-over

    A shallow embedding of [src/chess_game.py].  The Python classes
    [AnimatedPiece] and [ChessGame] become Rocq modules of the same name;
    attributes become record fields, methods become functions.  Methods that
    mutate [self] and may raise run in a small state-and-exception monad.

    Two collaborators live outside the repository and are modelled as
    interfaces: the rules library (python-chess, [chess.Board]) as the class
    [ChessRules], and the UCI engine process ([chess.engine.SimpleEngine]) as
    the oracles [popen_uci] and [play] that the methods take as arguments.
    [MiniChess] is an executable instance of the rules interface. *)

From Stdlib Require Import ZArith List Bool String Ascii Floats Lia.
Import ListNotations.

Set Warnings "-inexact-float".

Open Scope string_scope.
Open Scope Z_scope.

(** ** Python values used by the program *)

Module Py.

(** A Python number as the program handles it: [int] or [float]. *)
Inductive num : Type :=
| Int (z : Z)
| Float (f : float).

(** The values stored in [ChessGame.winner]: [None], a [str], or a [bool]
    (python-chess colours are the booleans [chess.WHITE = True] and
    [chess.BLACK = False]). *)
Inductive value : Type :=
| None_
| Str (s : string)
| Bool (b : bool).

(** Python [==] on these values; a [bool] never equals a [str]. *)
Definition eqb (a b : value) : bool :=
  match a, b with
  | None_, None_ => true
  | Str s, Str t => String.eqb s t
  | Bool x, Bool y => Bool.eqb x y
  | _, _ => false
  end.

(** The exceptions that can travel through the controller, each with its
    message.  [EngineTerminatedError] is the only one the program tells
    apart; every constructor is an [Exception] for [except Exception]. *)
Inductive exn : Type :=
| AttributeError (msg : string)
| ZeroDivisionError (msg : string)
| EngineTerminatedError (msg : string)
| Exception (msg : string).

(** [str(e)]. *)
Definition str (e : exn) : string :=
  match e with
  | AttributeError m | ZeroDivisionError m
  | EngineTerminatedError m | Exception m => m
  end.

(** What a call produces: a value, or a raised exception. *)
Inductive outcome (A : Type) : Type :=
| Return (a : A)
| Raise (e : exn).
Arguments Return {A} a.
Arguments Raise {A} e.

(** [float(z)]: the binary64 nearest to the integer [z], ties to even. *)
Definition float_of_Z (z : Z) : float :=
  SF2Prim (binary_normalize prec emax z 0 false).

(** [min(a, b)] on floats: Python keeps [a] unless [b < a]. *)
Definition min (a b : float) : float :=
  if (b <? a)%float then b else a.

(** [pow(x, 2)] on a float, taken as the correctly rounded square. *)
Definition pow2 (x : float) : float := (x * x)%float.

(** [int(x)] on a finite float: truncation towards zero. *)
Definition int_of_float (x : float) : Z :=
  match Prim2SF x with
  | S754_finite s m e =>
      let v := if 0 <=? e then Z.pos m * 2 ^ e else Z.shiftr (Z.pos m) (- e) in
      if s then - v else v
  | _ => 0
  end.

(** [s.lower()] on ASCII text. *)
Definition lower_ascii (c : ascii) : ascii :=
  let n := nat_of_ascii c in
  if (Nat.leb 65 n && Nat.leb n 90)%bool then ascii_of_nat (n + 32) else c.

Fixpoint lower (s : string) : string :=
  match s with
  | EmptyString => EmptyString
  | String c r => String (lower_ascii c) (lower r)
  end.

End Py.

(** ** class AnimatedPiece (lines 84-106) *)

Module AnimatedPiece.

Record t : Type := mk {
  piece_type : string;
  color : string;
  start_pos : Z * Z;
  end_pos : Z * Z;
  current_pos : Py.num * Py.num;
  progress : float
}.

Definition ANIMATION_SPEED : float := 0.08%float.

(** [__init__]: the piece starts at [start_pos] with progress [0.0]. *)
Definition init (piece_type color : string) (start_pos end_pos : Z * Z) : t :=
  mk piece_type color start_pos end_pos
     (Py.Int (fst start_pos), Py.Int (snd start_pos)) 0%float.

(** The easing of line 99:
    [t * t * (3 - 2 * t) if t < 0.5 else 1 - pow(-2 * t + 2, 2) / 2]. *)
Definition ease (t : float) : float :=
  (if t <? 0.5 then t * t * (3 - 2 * t)
   else 1 - Py.pow2 (-2 * t + 2) / 2)%float.

(** [start + (end - start) * ease] with integer [start], [end]. *)
Definition lerp (a b : Z) (e : float) : float :=
  (Py.float_of_Z a + Py.float_of_Z (b - a) * e)%float.

(** [update]: returns the mutated piece and the method's result. *)
Definition update (p : t) : bool * t :=
  let progress' := Py.min 1.0%float (progress p + ANIMATION_SPEED)%float in
  let t := progress' in
  let e := ease t in
  let pos := (Py.Float (lerp (fst (start_pos p)) (fst (end_pos p)) e),
              Py.Float (lerp (snd (start_pos p)) (snd (end_pos p)) e)) in
  ((1.0 <=? progress')%float,
   mk (piece_type p) (color p) (start_pos p) (end_pos p) pos progress').

(** [n] successive calls of [update] on the same object; the results of the
    calls are collected in call order. *)
Fixpoint updates (n : nat) (p : t) : list bool * t :=
  match n with
  | O => ([], p)
  | S k => let '(r, p1) := update p in
           let '(rs, p2) := updates k p1 in
           (r :: rs, p2)
  end.

(** The value of [progress] after [n] calls of [update] on a new piece. *)
Fixpoint progress_after (n : nat) : float :=
  match n with
  | O => 0%float
  | S k => Py.min 1.0%float (progress_after k + ANIMATION_SPEED)%float
  end.

(** The easing as the specification words it: for [t < 0.5] the cubic
    [t^2 (3 - 2t)], otherwise [1 - (-2t + 2)^2 / 2]. *)
Definition ease_spec (t : float) : float :=
  (if t <? 0.5 then (t * t) * (3 - 2 * t)
   else 1 - ((-2 * t + 2) * (-2 * t + 2)) / 2)%float.

End AnimatedPiece.

(** ** The rules collaborator: python-chess as an interface *)

Module Chess.

Definition Square : Type := Z.
Definition Color : Type := bool.
Definition WHITE : Color := true.
Definition BLACK : Color := false.

Inductive PieceType : Type := PAWN | KNIGHT | BISHOP | ROOK | QUEEN | KING.

Definition PieceType_eqb (a b : PieceType) : bool :=
  match a, b with
  | PAWN, PAWN | KNIGHT, KNIGHT | BISHOP, BISHOP
  | ROOK, ROOK | QUEEN, QUEEN | KING, KING => true
  | _, _ => false
  end.

Record Piece : Type := mkPiece { piece_type : PieceType; color : Color }.

(** [chess.square], [chess.square_file], [chess.square_rank]. *)
Definition square (file rank : Z) : Square := rank * 8 + file.
Definition square_file (sq : Square) : Z := Z.land sq 7.
Definition square_rank (sq : Square) : Z := Z.shiftr sq 3.

(** [chess.Move(from_square, to_square, promotion=None)]; drops do not occur
    in standard chess and are left out. *)
Record Move : Type := mkMove {
  from_square : Square;
  to_square : Square;
  promotion : option PieceType
}.

(** The assignment [move.promotion = p]. *)
Definition set_promotion (m : Move) (p : option PieceType) : Move :=
  mkMove (from_square m) (to_square m) p.

(** Equality of moves is field-wise, as for the Python dataclass. *)
Definition Move_eqb (a b : Move) : bool :=
  (from_square a =? from_square b) && (to_square a =? to_square b) &&
  match promotion a, promotion b with
  | None, None => true
  | Some p, Some q => PieceType_eqb p q
  | _, _ => false
  end.

(** [move in moves] for a list or a legal-move generator. *)
Definition move_in (m : Move) (l : list Move) : bool := existsb (Move_eqb m) l.

(** [bool(move)]: only the null move is falsy. *)
Definition Move_truthy (m : Move) : bool :=
  negb (from_square m =? 0) || negb (to_square m =? 0) ||
  match promotion m with Some _ => true | None => false end.

(** [piece.symbol()]: upper case for White, lower case for Black. *)
Definition symbol (p : Piece) : string :=
  match piece_type p, color p with
  | PAWN, true => "P" | KNIGHT, true => "N" | BISHOP, true => "B"
  | ROOK, true => "R" | QUEEN, true => "Q" | KING, true => "K"
  | PAWN, false => "p" | KNIGHT, false => "n" | BISHOP, false => "b"
  | ROOK, false => "r" | QUEEN, false => "q" | KING, false => "k"
  end.

(** [chess.Board] as the controller uses it.  [starting] is the position of
    [chess.Board()], which [board.reset()] restores.  [legal_moves b] lists what
    iterating [board.legal_moves] yields, and [move in board.legal_moves] is
    membership in that list.  The four laws are facts of python-chess that the
    controller relies on:
    - a legal move starts on an occupied square;
    - [push] hands the turn to the other side;
    - [push] of a move that starts on an occupied square and carries a
      promotion puts that piece, in the mover's colour, on the destination;
    - a legal pawn move onto the last rank always carries a promotion. *)
Class ChessRules : Type := {
  Board : Type;
  starting : Board;
  legal_moves : Board -> list Move;
  piece_at : Board -> Square -> option Piece;
  turn : Board -> Color;
  push : Board -> Move -> Board;
  is_checkmate : Board -> bool;
  is_stalemate : Board -> bool;
  is_insufficient_material : Board -> bool;
  legal_occupied : forall b m,
    move_in m (legal_moves b) = true -> piece_at b (from_square m) <> None;
  push_turn : forall b m, turn (push b m) = negb (turn b);
  push_promotion : forall b m pt,
    piece_at b (from_square m) <> None ->
    promotion m = Some pt -> pt <> KING ->
    piece_at (push b m) (to_square m) = Some (mkPiece pt (turn b));
  legal_pawn_promotes : forall b m c,
    move_in m (legal_moves b) = true ->
    piece_at b (from_square m) = Some (mkPiece PAWN c) ->
    square_rank (to_square m) = (if c then 7 else 0) ->
    promotion m <> None
}.

End Chess.

(** ** The engine collaborator: chess.engine.SimpleEngine *)

Module Engine.

(** A live engine handle, identified by the path it was launched from. *)
Record SimpleEngine : Type := mkEngine { path : string }.

(** [SimpleEngine.popen_uci(path)]: a handle, or the launch raises. *)
Definition popen_uci_t : Type := string -> Py.outcome SimpleEngine.

(** [engine.play(board, limit).move]: the move of the result (possibly
    [None]), or the call raises. *)
Definition play_t (Board : Type) : Type :=
  SimpleEngine -> Board -> Py.outcome (option Chess.Move).

End Engine.

(** ** class ChessGame (lines 108-866) *)

Module ChessGame.
Import Chess Engine.

Section WithRules.
Context {R : ChessRules}.

(** The attributes of a [ChessGame] that the game logic reads or writes.
    [two_player_mode] is [None] while the attribute does not exist yet
    ([__init__] never assigns it).  [stdout] collects the lines written by
    [print], oldest first. *)
Record t : Type := mk {
  board : Board;
  selected_square : option Square;
  valid_moves : list Move;
  animated_pieces : list AnimatedPiece.t;
  game_over : bool;
  winner : Py.value;
  player_color : Color;
  state : string;
  two_player_mode : option bool;
  computer_move_scheduled : bool;
  computer_thinking_start : Z;
  engine : option SimpleEngine;
  SQUARE_SIZE : Z;
  BOARD_OFFSET : Z;
  stdout : list string
}.

(** Attribute assignments [self.x = v]. *)
Definition set_board (v : Board) (g : t) : t :=
  mk v (selected_square g) (valid_moves g) (animated_pieces g) (game_over g)
     (winner g) (player_color g) (state g) (two_player_mode g)
     (computer_move_scheduled g) (computer_thinking_start g) (engine g)
     (SQUARE_SIZE g) (BOARD_OFFSET g) (stdout g).
Definition set_selected_square (v : option Square) (g : t) : t :=
  mk (board g) v (valid_moves g) (animated_pieces g) (game_over g)
     (winner g) (player_color g) (state g) (two_player_mode g)
     (computer_move_scheduled g) (computer_thinking_start g) (engine g)
     (SQUARE_SIZE g) (BOARD_OFFSET g) (stdout g).
Definition set_valid_moves (v : list Move) (g : t) : t :=
  mk (board g) (selected_square g) v (animated_pieces g) (game_over g)
     (winner g) (player_color g) (state g) (two_player_mode g)
     (computer_move_scheduled g) (computer_thinking_start g) (engine g)
     (SQUARE_SIZE g) (BOARD_OFFSET g) (stdout g).
Definition set_animated_pieces (v : list AnimatedPiece.t) (g : t) : t :=
  mk (board g) (selected_square g) (valid_moves g) v (game_over g)
     (winner g) (player_color g) (state g) (two_player_mode g)
     (computer_move_scheduled g) (computer_thinking_start g) (engine g)
     (SQUARE_SIZE g) (BOARD_OFFSET g) (stdout g).
Definition set_game_over (v : bool) (g : t) : t :=
  mk (board g) (selected_square g) (valid_moves g) (animated_pieces g) v
     (winner g) (player_color g) (state g) (two_player_mode g)
     (computer_move_scheduled g) (computer_thinking_start g) (engine g)
     (SQUARE_SIZE g) (BOARD_OFFSET g) (stdout g).
Definition set_winner (v : Py.value) (g : t) : t :=
  mk (board g) (selected_square g) (valid_moves g) (animated_pieces g)
     (game_over g) v (player_color g) (state g) (two_player_mode g)
     (computer_move_scheduled g) (computer_thinking_start g) (engine g)
     (SQUARE_SIZE g) (BOARD_OFFSET g) (stdout g).
Definition set_player_color (v : Color) (g : t) : t :=
  mk (board g) (selected_square g) (valid_moves g) (animated_pieces g)
     (game_over g) (winner g) v (state g) (two_player_mode g)
     (computer_move_scheduled g) (computer_thinking_start g) (engine g)
     (SQUARE_SIZE g) (BOARD_OFFSET g) (stdout g).
Definition set_state (v : string) (g : t) : t :=
  mk (board g) (selected_square g) (valid_moves g) (animated_pieces g)
     (game_over g) (winner g) (player_color g) v (two_player_mode g)
     (computer_move_scheduled g) (computer_thinking_start g) (engine g)
     (SQUARE_SIZE g) (BOARD_OFFSET g) (stdout g).
Definition set_two_player_mode (v : bool) (g : t) : t :=
  mk (board g) (selected_square g) (valid_moves g) (animated_pieces g)
     (game_over g) (winner g) (player_color g) (state g) (Some v)
     (computer_move_scheduled g) (computer_thinking_start g) (engine g)
     (SQUARE_SIZE g) (BOARD_OFFSET g) (stdout g).
Definition set_computer_move_scheduled (v : bool) (g : t) : t :=
  mk (board g) (selected_square g) (valid_moves g) (animated_pieces g)
     (game_over g) (winner g) (player_color g) (state g) (two_player_mode g)
     v (computer_thinking_start g) (engine g)
     (SQUARE_SIZE g) (BOARD_OFFSET g) (stdout g).
Definition set_computer_thinking_start (v : Z) (g : t) : t :=
  mk (board g) (selected_square g) (valid_moves g) (animated_pieces g)
     (game_over g) (winner g) (player_color g) (state g) (two_player_mode g)
     (computer_move_scheduled g) v (engine g)
     (SQUARE_SIZE g) (BOARD_OFFSET g) (stdout g).
Definition set_engine (v : option SimpleEngine) (g : t) : t :=
  mk (board g) (selected_square g) (valid_moves g) (animated_pieces g)
     (game_over g) (winner g) (player_color g) (state g) (two_player_mode g)
     (computer_move_scheduled g) (computer_thinking_start g) v
     (SQUARE_SIZE g) (BOARD_OFFSET g) (stdout g).
Definition set_stdout (v : list string) (g : t) : t :=
  mk (board g) (selected_square g) (valid_moves g) (animated_pieces g)
     (game_over g) (winner g) (player_color g) (state g) (two_player_mode g)
     (computer_move_scheduled g) (computer_thinking_start g) (engine g)
     (SQUARE_SIZE g) (BOARD_OFFSET g) v.

(** *** Methods as state transformers that may raise

    A computation takes the object, and yields a value or an exception
    together with the object as it then stands: what was assigned before a
    raise stays assigned. *)
Definition M (A : Type) : Type := t -> Py.outcome A * t.

Definition ret {A : Type} (a : A) : M A := fun g => (Py.Return a, g).

Definition bind {A B : Type} (c : M A) (k : A -> M B) : M B :=
  fun g => match c g with
           | (Py.Return a, g1) => k a g1
           | (Py.Raise e, g1) => (Py.Raise e, g1)
           end.

Definition raise {A : Type} (e : Py.exn) : M A := fun g => (Py.Raise e, g).

Definition get : M t := fun g => (Py.Return g, g).

Definition modify (f : t -> t) : M unit := fun g => (Py.Return tt, f g).

(** The value or exception of an external call. *)
Definition call {A : Type} (r : Py.outcome A) : M A := fun g => (r, g).

(** [try: body except ... as e: handler e]. *)
Definition try_except {A : Type} (body : M A) (handler : Py.exn -> M A) : M A :=
  fun g => match body g with
           | (Py.Raise e, g1) => handler e g1
           | r => r
           end.

(** [print(line)]. *)
Definition print (line : string) : M unit :=
  modify (fun g => set_stdout (stdout g ++ [line]) g).

Notation "x <- c ;; k" := (bind c (fun x => k))
  (at level 61, c at next level, right associativity).
Notation "c ;; k" := (bind c (fun _ => k))
  (at level 61, right associativity).

(** Reading [self.two_player_mode]. *)
Definition get_two_player_mode : M bool :=
  self <- get ;;
  match two_player_mode self with
  | Some b => ret b
  | None => raise (Py.AttributeError "two_player_mode")
  end.

(** [resign] (lines 545-548). *)
Definition resign : M unit :=
  modify (set_game_over true) ;;
  self <- get ;;
  modify (set_winner
            (Py.Bool (if Bool.eqb (turn (board self)) WHITE then BLACK else WHITE))).

(** [show_menu] (lines 550-558). *)
Definition show_menu : M unit :=
  modify (set_state "MENU") ;;
  modify (set_board starting) ;;
  modify (set_selected_square None) ;;
  modify (set_valid_moves []) ;;
  modify (set_animated_pieces []) ;;
  modify (set_game_over false) ;;
  modify (set_winner Py.None_).

Definition stockfish_paths : list string :=
  ["/opt/homebrew/bin/stockfish"; "/usr/local/bin/stockfish"; "stockfish"].

(** The loop of [init_engine] (lines 684-691); the result tells whether the
    method returned from inside the loop. *)
Fixpoint init_engine_loop (popen_uci : popen_uci_t) (paths : list string) : M bool :=
  match paths with
  | [] => ret false
  | path :: rest =>
      match popen_uci path with
      | Py.Return e =>
          modify (set_engine (Some e)) ;;
          print ("Successfully initialized chess engine at: " ++ path) ;;
          ret true
      | Py.Raise e =>
          print ("Failed to initialize engine at " ++ path ++ ": " ++ Py.str e) ;;
          init_engine_loop popen_uci rest
      end
  end.

(** [init_engine] (lines 676-693). *)
Definition init_engine (popen_uci : popen_uci_t) : M unit :=
  returned <- init_engine_loop popen_uci stockfish_paths ;;
  if returned then ret tt
  else print "Could not initialize chess engine. Please make sure Stockfish is installed.".

(** [start_vs_computer] (lines 560-588).  The first block yields [false]
    where the method returns early. *)
Definition start_vs_computer (popen_uci : popen_uci_t) : M unit :=
  self <- get ;;
  continue <-
    match engine self with
    | Some _ => ret true
    | None =>
        try_except
          (init_engine popen_uci ;;
           self <- get ;;
           match engine self with
           | Some _ => ret true
           | None =>
               print "Chess engine not available. Please install Stockfish to play against computer." ;;
               ret false
           end)
          (fun e =>
             print ("Failed to initialize chess engine: " ++ Py.str e) ;;
             ret false)
    end ;;
  if continue then
    modify (set_state "PLAYING") ;;
    modify (set_board starting) ;;
    modify (set_selected_square None) ;;
    modify (set_valid_moves []) ;;
    modify (set_animated_pieces []) ;;
    modify (set_game_over false) ;;
    modify (set_winner Py.None_) ;;
    modify (set_player_color WHITE) ;;
    modify (set_two_player_mode false) ;;
    modify (set_computer_move_scheduled false) ;;
    modify (set_computer_thinking_start 0) ;;
    self <- get ;;
    match engine self with
    | Some _ => ret tt
    | None => init_engine popen_uci
    end
  else ret tt.

(** [start_vs_human] (lines 590-600). *)
Definition start_vs_human : M unit :=
  modify (set_state "PLAYING") ;;
  modify (set_board starting) ;;
  modify (set_selected_square None) ;;
  modify (set_valid_moves []) ;;
  modify (set_animated_pieces []) ;;
  modify (set_game_over false) ;;
  modify (set_winner Py.None_) ;;
  modify (set_player_color WHITE) ;;
  modify (set_two_player_mode true).

(** [check_game_over] (lines 602-613). *)
Definition check_game_over : M unit :=
  self <- get ;;
  let b := board self in
  if is_checkmate b || is_stalemate b || is_insufficient_material b then
    modify (set_game_over true) ;;
    if is_checkmate b then
      if Bool.eqb (turn b) WHITE then
        modify (set_winner
                  (if Bool.eqb (player_color self) WHITE
                   then Py.Str "computer" else Py.Str "player"))
      else
        modify (set_winner
                  (if Bool.eqb (player_color self) WHITE
                   then Py.Str "player" else Py.Str "computer"))
    else modify (set_winner Py.None_)
  else ret tt.

(** The promotion test of [make_move] (lines 619-621). *)
Definition pawn_reaches_last_rank (piece : option Piece) (move : Move) : bool :=
  match piece with
  | Some p =>
      PieceType_eqb (piece_type p) PAWN &&
      ((color p && (square_rank (to_square move) =? 7)) ||
       (negb (color p) && (square_rank (to_square move) =? 0)))
  | None => false
  end.

(** The move as [make_move] pushes it: the caller's object with
    [promotion] overwritten by [QUEEN] when the test holds (line 622). *)
Definition normalized (b : Board) (move : Move) : Move :=
  if pawn_reaches_last_rank (piece_at b (from_square move)) move
  then set_promotion move (Some QUEEN) else move.

(** Screen position of the centre of a square (lines 629-636). *)
Definition square_center (size : Z) (sq : Square) : Z * Z :=
  (square_file sq * size + size / 2, (7 - square_rank sq) * size + size / 2).

(** [make_move] (lines 615-649). *)
Definition make_move (move : Move) : M unit :=
  self <- get ;;
  if move_in move (legal_moves (board self)) then
    let move := normalized (board self) move in
    let piece := piece_at (board self) (from_square move) in
    let start_pos := square_center (SQUARE_SIZE self) (from_square move) in
    let end_pos := square_center (SQUARE_SIZE self) (to_square move) in
    match piece with
    | None => raise (Py.AttributeError "'NoneType' object has no attribute 'symbol'")
    | Some p =>
        modify (set_animated_pieces
                  (animated_pieces self ++
                   [AnimatedPiece.init (Py.lower (symbol p))
                                       (if color p then "w" else "b")
                                       start_pos end_pos])) ;;
        modify (set_board (push (board self) move)) ;;
        check_game_over
    end
  else ret tt.

(** [make_computer_move] (lines 651-674). *)
Definition make_computer_move (play : play_t Board) : M unit :=
  self <- get ;;
  match engine self with
  | None =>
      print "Chess engine not available" ;;
      modify (set_game_over true) ;;
      modify (set_winner (Py.Str "player"))
  | Some eng =>
      try_except
        (move <- call (play eng (board self)) ;;
         match move with
         | Some mv =>
             if Move_truthy mv then
               make_move mv ;;
               modify (set_computer_move_scheduled false) ;;
               modify (set_computer_thinking_start 0)
             else ret tt
         | None => ret tt
         end)
        (fun e =>
           match e with
           | Py.EngineTerminatedError _ =>
               print "Chess engine has terminated unexpectedly" ;;
               modify (set_engine None) ;;
               modify (set_game_over true) ;;
               modify (set_winner (Py.Str "player"))
           | _ =>
               print ("Error making computer move: " ++ Py.str e) ;;
               modify (set_game_over true) ;;
               modify (set_winner (Py.Str "player"))
           end)
  end.

(** [start_game] (lines 695-705). *)
Definition start_game (two_player : bool) : M unit :=
  modify (set_state "PLAYING") ;;
  modify (set_board starting) ;;
  modify (set_two_player_mode two_player) ;;
  modify (set_player_color true) ;;
  modify (set_selected_square None) ;;
  modify (set_valid_moves []) ;;
  modify (set_animated_pieces []) ;;
  modify (set_game_over false) ;;
  modify (set_winner Py.None_) ;;
  modify (set_computer_move_scheduled false).

(** The pygame events the controller distinguishes. *)
Inductive Event : Type :=
| MOUSEBUTTONDOWN (button : Z) (pos : Z * Z)
| MOUSEMOTION (pos : Z * Z)
| KEYDOWN (key : Z)
| QUIT.

(** The promotion test of [handle_event] (lines 729-731), on the piece
    standing on the selected square. *)
Definition click_promotes (b : Board) (p : Piece) (move : Move) : bool :=
  PieceType_eqb (piece_type p) PAWN &&
  ((turn b && (square_rank (to_square move) =? 7)) ||
   (negb (turn b) && (square_rank (to_square move) =? 0))).

(** [handle_event] (lines 707-736). *)
Definition handle_event (event : Event) : M unit :=
  match event with
  | MOUSEBUTTONDOWN button (x, y) =>
      if button =? 1 then
        self <- get ;;
        enabled <-
          (if game_over self then ret false
           else two_player <- get_two_player_mode ;;
                ret (two_player || Bool.eqb (turn (board self)) (player_color self))) ;;
        if enabled then
          if SQUARE_SIZE self =? 0
          then raise (Py.ZeroDivisionError "integer division or modulo by zero")
          else
            let file := (x - BOARD_OFFSET self) / SQUARE_SIZE self in
            let rank := 7 - (y - BOARD_OFFSET self) / SQUARE_SIZE self in
            if (0 <=? file) && (file <? 8) && (0 <=? rank) && (rank <? 8) then
              let sq := square file rank in
              match selected_square self with
              | None =>
                  match piece_at (board self) sq with
                  | Some piece =>
                      if Bool.eqb (color piece) (turn (board self)) then
                        modify (set_selected_square (Some sq)) ;;
                        modify (set_valid_moves
                                  (filter (fun move => from_square move =? sq)
                                          (legal_moves (board self))))
                      else ret tt
                  | None => ret tt
                  end
              | Some selected =>
                  let move := mkMove selected sq None in
                  (if move_in move (valid_moves self) then
                     match piece_at (board self) selected with
                     | None =>
                         raise (Py.AttributeError
                                  "'NoneType' object has no attribute 'piece_type'")
                     | Some piece =>
                         let move :=
                           if click_promotes (board self) piece move
                           then set_promotion move (Some QUEEN) else move in
                         make_move move
                     end
                   else ret tt) ;;
                  modify (set_selected_square None) ;;
                  modify (set_valid_moves [])
              end
            else ret tt
        else ret tt
      else ret tt
  | _ => ret tt
  end.

(** [select_square] (lines 266-269). *)
Definition select_square (sq : Square) : M unit :=
  modify (set_selected_square (Some sq)) ;;
  self <- get ;;
  modify (set_valid_moves
            (filter (fun move => from_square move =? sq) (legal_moves (board self)))).

(** The texts chosen by [draw_game_over] (lines 279-287). *)
Definition game_over_message (self : t) : string * string :=
  if Py.eqb (winner self) (Py.Str "computer")
  then ("Computer Wins!", "Better luck next time!")
  else if Py.eqb (winner self) (Py.Str "player")
  then ("Player Wins!", "Congratulations!")
  else ("Game Over", EmptyString).

(** [restart_game] (lines 854-866). *)
Definition restart_game : M unit :=
  modify (set_board starting) ;;
  modify (set_selected_square None) ;;
  modify (set_valid_moves []) ;;
  modify (set_animated_pieces []) ;;
  modify (set_game_over false) ;;
  modify (set_winner Py.None_) ;;
  two_player <- get_two_player_mode ;;
  if negb two_player then
    modify (set_player_color WHITE) ;;
    modify (set_computer_move_scheduled false) ;;
    modify (set_computer_thinking_start 0)
  else ret tt.

(** The animation pass of [run] (lines 820-823): every piece is updated
    once, and a piece whose [update] returns true is removed. *)
Fixpoint update_pieces (l : list AnimatedPiece.t) : list AnimatedPiece.t :=
  match l with
  | [] => []
  | piece :: rest =>
      let '(finished, piece') := AnimatedPiece.update piece in
      if finished then update_pieces rest else piece' :: update_pieces rest
  end.

Definition update_animations : M unit :=
  self <- get ;;
  modify (set_animated_pieces (update_pieces (animated_pieces self))).

(** The computer's turn in [run] (lines 834-847); [current_time] is
    [pygame.time.get_ticks()], in milliseconds. *)
Definition computer_turn (current_time : Z) (play : play_t Board) : M unit :=
  self <- get ;;
  ready <-
    (if game_over self then ret false
     else two_player <- get_two_player_mode ;;
          ret (negb two_player &&
               negb (Bool.eqb (turn (board self)) (player_color self)) &&
               match animated_pieces self with [] => true | _ => false end)) ;;
  if ready then
    if negb (computer_move_scheduled self) then
      modify (set_computer_move_scheduled true) ;;
      modify (set_computer_thinking_start current_time) ;;
      make_computer_move play
    else if current_time - computer_thinking_start self >? 1000 then
      print "Computer move timed out" ;;
      modify (set_computer_move_scheduled false) ;;
      modify (set_computer_thinking_start 0) ;;
      modify (set_game_over true) ;;
      modify (set_winner (Py.Str "player"))
    else ret tt
  else ret tt.

(** What one pass of the [run] loop does to the game after the events have
    been handled (lines 820-850, drawing left out). *)
Definition run_update (current_time : Z) (play : play_t Board) : M unit :=
  update_animations ;;
  self <- get ;;
  if String.eqb (state self) "MENU" then ret tt
  else if String.eqb (state self) "PLAYING" then computer_turn current_time play
  else ret tt.

(** The engine search of [__init__] (lines 158-170): first path that
    launches, nothing printed. *)
Fixpoint first_engine (popen_uci : popen_uci_t) (paths : list string)
  : option SimpleEngine :=
  match paths with
  | [] => None
  | path :: rest =>
      match popen_uci path with
      | Py.Return e => Some e
      | Py.Raise _ => first_engine popen_uci rest
      end
  end.

(** [__init__] (lines 109-173) for a display of the given size. *)
Definition init (display_size : Z * Z) (popen_uci : popen_uci_t) : t :=
  let '(width, height) := display_size in
  let scale_x := (Py.float_of_Z width / 1200)%float in
  let scale_y := (Py.float_of_Z height / 800)%float in
  let scale := Py.min scale_x scale_y in
  let BOARD_SIZE := Py.int_of_float (700 * scale)%float in
  mk starting None [] [] false Py.None_ WHITE "MENU" None false 0
     (first_engine popen_uci stockfish_paths)
     (BOARD_SIZE / 8) (Py.int_of_float (50 * scale)%float) [].

(** *** What can happen to a game

    One step is one method call as the [run] loop can issue it: a button
    callback, an event passed to [handle_event], or the update pass of a
    frame.  The object after the call is the next state whether the call
    returned or raised. *)
Inductive step (g : t) : t -> Prop :=
| step_show_menu : step g (snd (show_menu g))
| step_start_vs_computer popen_uci : step g (snd (start_vs_computer popen_uci g))
| step_start_vs_human : step g (snd (start_vs_human g))
| step_start_game two_player : step g (snd (start_game two_player g))
| step_restart_game : step g (snd (restart_game g))
| step_resign : step g (snd (resign g))
| step_handle_event event : step g (snd (handle_event event g))
| step_run_update current_time play : step g (snd (run_update current_time play g)).

(** The states the program can be in: those of a fresh object, and what
    steps make of them. *)
Inductive reachable : t -> Prop :=
| reachable_init display_size popen_uci : reachable (init display_size popen_uci)
| reachable_step g g' : reachable g -> step g g' -> reachable g'.

End WithRules.
End ChessGame.

(** ** What the methods leave behind

    Closed forms of the object after [check_game_over], after a successful
    [make_move] and after the timeout branch of [run], and the properties
    that the statements below are about. *)

Module Outcome.
Import Chess Engine ChessGame.

Section WithRules.
Context {R : ChessRules}.

(** The object after [check_game_over]. *)
Definition checked (g : ChessGame.t) : ChessGame.t :=
  let b := board g in
  if is_checkmate b || is_stalemate b || is_insufficient_material b then
    set_winner
      (if is_checkmate b then
         if Bool.eqb (turn b) (player_color g)
         then Py.Str "computer" else Py.Str "player"
       else Py.None_)
      (set_game_over true g)
  else g.

(** The animation that [make_move] appends for piece [p]. *)
Definition animation_of (g : ChessGame.t) (move : Move) (p : Piece)
  : AnimatedPiece.t :=
  AnimatedPiece.init (Py.lower (symbol p)) (if color p then "w" else "b")
    (square_center (SQUARE_SIZE g) (from_square move))
    (square_center (SQUARE_SIZE g) (to_square move)).

(** The object after a [make_move] that found its move legal, [p] being
    the piece on the origin square. *)
Definition moved_game (g : ChessGame.t) (move : Move) (p : Piece) : ChessGame.t :=
  checked
    (set_board (push (board g) (normalized (board g) move))
       (set_animated_pieces (animated_pieces g ++ [animation_of g move p]) g)).

(** The object after the timeout branch of [run] (lines 843-847). *)
Definition timed_out (g : ChessGame.t) : ChessGame.t :=
  set_winner (Py.Str "player")
    (set_game_over true
       (set_computer_thinking_start 0
          (set_computer_move_scheduled false
             (set_stdout (stdout g ++ ["Computer move timed out"]) g)))).

(** [make_move] called on each move of a list in turn. *)
Fixpoint make_moves (moves : list Move) : M unit :=
  match moves with
  | [] => ret tt
  | move :: rest => bind (make_move move) (fun _ => make_moves rest)
  end.

(** A call on object [g] with result [r] reports a failure when it raises
    (a method here returns nothing but [None]) or prints a message. *)
Definition reports_failure (r : Py.outcome unit * ChessGame.t) (g : ChessGame.t)
  : Prop :=
  fst r <> Py.Return tt \/ stdout (snd r) <> stdout g.

(** While a computer-move request is in flight in a running vs-computer
    game, it is the computer's turn and no animation is pending. *)
Definition inflight_inv (g : ChessGame.t) : Prop :=
  state g = "PLAYING" -> two_player_mode g = Some false ->
  game_over g = false -> computer_move_scheduled g = true ->
  turn (board g) <> player_color g /\ animated_pieces g = [].

End WithRules.
End Outcome.

(** ** class Button (lines 29-82) and the widgets of the game *)

(** [pygame.Rect] as the program uses it. *)
Module Rect.

Record t : Type := mk { x : Z; y : Z; width : Z; height : Z }.

(** A coordinate handed to [pygame.Rect]: an [int] is kept, a [float] is
    truncated. *)
Definition coordinate (v : Py.num) : Z :=
  match v with
  | Py.Int z => z
  | Py.Float f => Py.int_of_float f
  end.

Definition of_nums (x y width height : Py.num) : t :=
  mk (coordinate x) (coordinate y) (coordinate width) (coordinate height).

(** [rect.collidepoint(pos)]: the right and bottom edges are outside. *)
Definition collidepoint (r : t) (pos : Z * Z) : bool :=
  (x r <=? fst pos) && (fst pos <? x r + width r) &&
  (y r <=? snd pos) && (snd pos <? y r + height r).

(** [rect.centerx = v] and [rect.y = v]. *)
Definition set_centerx (v : Z) (r : t) : t :=
  mk (v - width r / 2) (y r) (width r) (height r).
Definition set_y (v : Z) (r : t) : t := mk (x r) v (width r) (height r).

End Rect.

Module Button.
Import Chess Engine.

(** The bound methods that the program hands to its buttons. *)
Inductive Callback : Type :=
| start_vs_computer
| start_vs_human
| restart_game
| resign
| show_menu.

Record t : Type := mk {
  rect : Rect.t;
  text : string;
  callback : Callback;
  base_color : Z * Z * Z;
  hover : bool;
  animation_progress : float
}.

Definition ANIMATION_SPEED : float := 0.2%float.

Definition ACCENT_COLOR : Z * Z * Z := (255, 167, 25).
Definition MENU_ACCENT : Z * Z * Z := (72, 69, 64).
Definition HIGHLIGHT_CAPTURE : Z * Z * Z := (235, 97, 80).

(** [__init__] (lines 30-37). *)
Definition init (x y width height : Py.num) (text : string) (callback : Callback)
  (color : Z * Z * Z) : t :=
  mk (Rect.of_nums x y width height) text callback color false 0%float.

Definition set_rect (r : Rect.t) (b : t) : t :=
  mk r (text b) (callback b) (base_color b) (hover b) (animation_progress b).
Definition set_hover (h : bool) (b : t) : t :=
  mk (rect b) (text b) (callback b) (base_color b) h (animation_progress b).

(** What [draw] (lines 39-73) does to the button itself: the hover
    animation moves a fifth of the way to its target (lines 41-42). *)
Definition draw (b : t) : t :=
  let target := if hover b then 1.0%float else 0.0%float in
  mk (rect b) (text b) (callback b) (base_color b) (hover b)
     (animation_progress b + (target - animation_progress b) * ANIMATION_SPEED)%float.

Section WithRules.
Context {R : ChessRules}.

(** Calling the bound method. *)
Definition invoke (popen_uci : popen_uci_t) (c : Callback) : ChessGame.M unit :=
  match c with
  | start_vs_computer => ChessGame.start_vs_computer popen_uci
  | start_vs_human => ChessGame.start_vs_human
  | restart_game => ChessGame.restart_game
  | resign => ChessGame.resign
  | show_menu => ChessGame.show_menu
  end.

(** [handle_event] (lines 75-82): the method's result and the button as
    it stands afterwards. *)
Definition handle_event (popen_uci : popen_uci_t) (b : t) (event : ChessGame.Event)
  : ChessGame.M (bool * t) :=
  match event with
  | ChessGame.MOUSEMOTION pos =>
      ChessGame.ret (false, set_hover (Rect.collidepoint (rect b) pos) b)
  | ChessGame.MOUSEBUTTONDOWN button pos =>
      if (button =? 1) && Rect.collidepoint (rect b) pos then
        ChessGame.bind (invoke popen_uci (callback b))
                       (fun _ => ChessGame.ret (true, b))
      else ChessGame.ret (false, b)
  | _ => ChessGame.ret (false, b)
  end.

(** [for button in buttons: button.handle_event(event)]. *)
Fixpoint handle_all (popen_uci : popen_uci_t) (buttons : list t)
  (event : ChessGame.Event) : ChessGame.M (list t) :=
  match buttons with
  | [] => ChessGame.ret []
  | b :: rest =>
      ChessGame.bind (handle_event popen_uci b event) (fun r =>
      ChessGame.bind (handle_all popen_uci rest event) (fun rest' =>
      ChessGame.ret (snd r :: rest')))
  end.

End WithRules.
End Button.

(** The attributes of a [ChessGame] that hold the window and its widgets. *)
Module Window.

Record t : Type := mk {
  width : Z;
  height : Z;
  scale : float;
  BOARD_SIZE : Z;
  SIDEBAR_WIDTH : Z;
  fullscreen : bool;
  menu_buttons : list Button.t;
  game_buttons : list Button.t;
  game_over_buttons : list Button.t
}.

Definition set_menu_buttons (v : list Button.t) (w : t) : t :=
  mk (width w) (height w) (scale w) (BOARD_SIZE w) (SIDEBAR_WIDTH w)
     (fullscreen w) v (game_buttons w) (game_over_buttons w).
Definition set_game_buttons (v : list Button.t) (w : t) : t :=
  mk (width w) (height w) (scale w) (BOARD_SIZE w) (SIDEBAR_WIDTH w)
     (fullscreen w) (menu_buttons w) v (game_over_buttons w).
Definition set_game_over_buttons (v : list Button.t) (w : t) : t :=
  mk (width w) (height w) (scale w) (BOARD_SIZE w) (SIDEBAR_WIDTH w)
     (fullscreen w) (menu_buttons w) (game_buttons w) v.

(** [create_buttons] (lines 175-220); [BOARD_OFFSET] is the attribute of
    that name. *)
Definition create_buttons (BOARD_OFFSET : Z) (w : t) : t :=
  let button_width := Py.int_of_float (220 * scale w)%float in
  let button_height := Py.int_of_float (50 * scale w)%float in
  let spacing := Py.int_of_float (20 * scale w)%float in
  let center_x := width w / 2 in
  let start_y := height w / 2 in
  let sidebar_x := BOARD_SIZE w + BOARD_OFFSET * 2 in
  let side_width :=
    Py.Float (Py.float_of_Z (SIDEBAR_WIDTH w) - 20 * scale w)%float in
  let side_y (k : float) := Py.Float (Py.float_of_Z (height w) - k * scale w)%float in
  mk (width w) (height w) (scale w) (BOARD_SIZE w) (SIDEBAR_WIDTH w) (fullscreen w)
     [Button.init (Py.Int (center_x - button_width / 2)) (Py.Int start_y)
                  (Py.Int button_width) (Py.Int button_height)
                  "Play vs Computer" Button.start_vs_computer Button.ACCENT_COLOR;
      Button.init (Py.Int (center_x - button_width / 2))
                  (Py.Int (start_y + button_height + spacing))
                  (Py.Int button_width) (Py.Int button_height)
                  "Play with a Friend" Button.start_vs_human Button.MENU_ACCENT]
     [Button.init (Py.Int sidebar_x) (side_y 150%float) side_width (Py.Int button_height)
                  "Restart Game" Button.restart_game Button.ACCENT_COLOR;
      Button.init (Py.Int sidebar_x) (side_y 100%float) side_width (Py.Int button_height)
                  "Resign" Button.resign Button.HIGHLIGHT_CAPTURE;
      Button.init (Py.Int sidebar_x) (side_y 50%float) side_width (Py.Int button_height)
                  "Main Menu" Button.show_menu Button.MENU_ACCENT]
     [Button.init (Py.Int (center_x - button_width / 2))
                  (Py.Int (start_y + button_height + spacing))
                  (Py.Int button_width) (Py.Int button_height)
                  "Back to Menu" Button.show_menu Button.MENU_ACCENT].

(** The window part of [__init__] (lines 117-129 and 173) on a desktop of
    the given size. *)
Definition init (display_size : Z * Z) : t :=
  let '(width, height) := display_size in
  let scale_x := (Py.float_of_Z width / 1200)%float in
  let scale_y := (Py.float_of_Z height / 800)%float in
  let scale := Py.min scale_x scale_y in
  create_buttons (Py.int_of_float (50 * scale)%float)
    (mk width height scale (Py.int_of_float (700 * scale)%float)
        (Py.int_of_float (300 * scale)%float) true [] [] []).

(** The ESC key (lines 796-805): the window toggles between 1200x800 and
    the full desktop, the scale is taken anew and the buttons are made
    again; the board's sizes are not. *)
Definition toggle_fullscreen (desktop : Z * Z) (BOARD_OFFSET : Z) (w : t) : t :=
  let '(width, height) := if fullscreen w then (1200, 800) else desktop in
  let scale_x := (Py.float_of_Z width / 1200)%float in
  let scale_y := (Py.float_of_Z height / 800)%float in
  create_buttons BOARD_OFFSET
    (mk width height (Py.min scale_x scale_y) (BOARD_SIZE w) (SIDEBAR_WIDTH w)
        (negb (fullscreen w)) (menu_buttons w) (game_buttons w)
        (game_over_buttons w)).

(** The buttons of [draw_menu] (lines 427-434): each is moved under the
    decoration, centred, and drawn. *)
Fixpoint place_menu_buttons (center_x button_y : Z) (buttons : list Button.t)
  : list Button.t :=
  match buttons with
  | [] => []
  | b :: rest =>
      let r := Rect.set_y button_y (Rect.set_centerx center_x (Button.rect b)) in
      Button.draw (Button.set_rect r b)
      :: place_menu_buttons center_x (button_y + Rect.height r + 20) rest
  end.

Definition draw_menu (w : t) : t :=
  let center_x := width w / 2 in
  let title_y := height w / 3 in
  let piece_size := Py.int_of_float (80 * scale w)%float in
  let piece_y := title_y + 120 in
  set_menu_buttons
    (place_menu_buttons center_x (piece_y + piece_size + 50) (menu_buttons w)) w.

(** The buttons of [draw_game_buttons] (lines 347-357): Restart and Main
    Menu always, Resign unless the game is over.  [create_buttons] always
    lists the three. *)
Definition draw_game_buttons (game_over : bool) (w : t) : t :=
  match game_buttons w with
  | restart :: resign :: menu :: rest =>
      set_game_buttons
        (Button.draw restart
         :: (if game_over then resign else Button.draw resign)
         :: Button.draw menu :: rest) w
  | _ => w
  end.

(** The buttons of [draw_game_over] (lines 300-302). *)
Definition draw_game_over (w : t) : t :=
  set_game_over_buttons (map Button.draw (game_over_buttons w)) w.

End Window.

(** ** The main loop, [run] (lines 778-852) *)
Module Run.
Import Chess Engine.

(** [pygame.K_ESCAPE]. *)
Definition K_ESCAPE : Z := 27.

(** How a pass over the events ends: the loop goes on, or [sys.exit()] has
    been called. *)
Inductive flow : Type := Continue | Exit.

Section WithRules.
Context {R : ChessRules}.

Local Notation "x <- c1 ;; c2" := (ChessGame.bind c1 (fun x => c2))
  (at level 61, c1 at next level, right associativity).
Local Notation "c1 ;; c2" := (ChessGame.bind c1 (fun _ => c2))
  (at level 61, right associativity).

(** Who gets the event (lines 807-818). *)
Definition route (popen_uci : popen_uci_t) (event : ChessGame.Event) (w : Window.t)
  : ChessGame.M Window.t :=
  self <- ChessGame.get ;;
  if ChessGame.game_over self then
    buttons <- Button.handle_all popen_uci (Window.game_over_buttons w) event ;;
    ChessGame.ret (Window.set_game_over_buttons buttons w)
  else if String.eqb (ChessGame.state self) "MENU" then
    buttons <- Button.handle_all popen_uci (Window.menu_buttons w) event ;;
    ChessGame.ret (Window.set_menu_buttons buttons w)
  else if String.eqb (ChessGame.state self) "PLAYING" then
    buttons <- Button.handle_all popen_uci (Window.game_buttons w) event ;;
    self <- ChessGame.get ;;
    (if ChessGame.game_over self then ChessGame.ret tt
     else ChessGame.handle_event event) ;;
    ChessGame.ret (Window.set_game_buttons buttons w)
  else ChessGame.ret w.

(** One event of the queue (lines 787-818); [desktop] is the size that
    pygame reports for a full-screen window. *)
Definition run_event (popen_uci : popen_uci_t) (desktop : Z * Z)
  (event : ChessGame.Event) (w : Window.t) : ChessGame.M (flow * Window.t) :=
  match event with
  | ChessGame.QUIT => ChessGame.ret (Exit, w)
  | _ =>
      self <- ChessGame.get ;;
      let w :=
        match event with
        | ChessGame.KEYDOWN key =>
            if key =? K_ESCAPE
            then Window.toggle_fullscreen desktop (ChessGame.BOARD_OFFSET self) w
            else w
        | _ => w
        end in
      w <- route popen_uci event w ;;
      ChessGame.ret (Continue, w)
  end.

(** [for event in pygame.event.get()] (line 786). *)
Fixpoint run_events (popen_uci : popen_uci_t) (desktop : Z * Z)
  (events : list ChessGame.Event) (w : Window.t) : ChessGame.M (flow * Window.t) :=
  match events with
  | [] => ChessGame.ret (Continue, w)
  | event :: rest =>
      r <- run_event popen_uci desktop event w ;;
      match fst r with
      | Exit => ChessGame.ret r
      | Continue => run_events popen_uci desktop rest (snd r)
      end
  end.

(** What a pass reads from outside: the clock, the event queue, the
    engine's answer, the launcher of engines and the desktop size. *)
Record input : Type := mk_input {
  current_time : Z;
  events : list ChessGame.Event;
  play : play_t Board;
  popen_uci : popen_uci_t;
  desktop : Z * Z
}.

(** The rest of a pass (lines 820-850): the animations advance, the state
    is drawn, and in a game the computer gets its turn.  Drawing is
    reduced to what it does to the buttons. *)
Definition update_and_draw (current_time : Z) (play : play_t Board) (w : Window.t)
  : ChessGame.M (flow * Window.t) :=
  ChessGame.update_animations ;;
  self <- ChessGame.get ;;
  if String.eqb (ChessGame.state self) "MENU" then
    ChessGame.ret (Continue, Window.draw_menu w)
  else if String.eqb (ChessGame.state self) "PLAYING" then
    let w := Window.draw_game_buttons (ChessGame.game_over self) w in
    ChessGame.computer_turn current_time play ;;
    self <- ChessGame.get ;;
    ChessGame.ret
      (Continue, if ChessGame.game_over self then Window.draw_game_over w else w)
  else ChessGame.ret (Continue, w).

(** One pass of the [while] loop (lines 779-852). *)
Definition run_iteration (i : input) (w : Window.t) : ChessGame.M (flow * Window.t) :=
  r <- run_events (popen_uci i) (desktop i) (events i) w ;;
  match fst r with
  | Exit => ChessGame.ret r
  | Continue => update_and_draw (current_time i) (play i) (snd r)
  end.

(** The program between two passes of the loop: a fresh object, then
    whatever the passes that went on make of it. *)
Inductive looping : ChessGame.t * Window.t -> Prop :=
| looping_init display_size popen_uci :
    looping (ChessGame.init display_size popen_uci, Window.init display_size)
| looping_pass g w i g' w' :
    looping (g, w) ->
    run_iteration i w g = (Py.Return (Continue, w'), g') ->
    looping (g', w').

End WithRules.
End Run.

(** ** Notions used to describe the program's behaviour *)
Module Play.
Import Chess Engine ChessGame.

Section WithRules.
Context {R : ChessRules}.

(** The selection on display matches the position: the selected square
    holds a piece of the side to move, [valid_moves] lists the legal moves
    from it, and in a game against the computer it is the human's turn. *)
Definition selection_inv (g : ChessGame.t) : Prop :=
  match selected_square g with
  | None => valid_moves g = []
  | Some sq =>
      valid_moves g
      = filter (fun move => from_square move =? sq) (legal_moves (board g)) /\
      (exists p, piece_at (board g) sq = Some p /\ color p = turn (board g)) /\
      (two_player_mode g = Some false -> turn (board g) = player_color g)
  end.

(** In a game the mode has been set. *)
Definition mode_inv (g : ChessGame.t) : Prop :=
  state g = "PLAYING" -> two_player_mode g <> None.

(** While the game runs there is no winner. *)
Definition winner_inv (g : ChessGame.t) : Prop :=
  game_over g = false -> winner g = Py.None_.

(** How the board can differ from one state to the next: not at all, reset
    to the starting position, or by one legal move pushed as [make_move]
    pushes it. *)
Definition board_step (b b' : Board) : Prop :=
  b' = b \/ b' = starting \/
  exists m, move_in m (legal_moves b) = true /\ b' = push b (normalized b m).

(** The positions that legal moves lead to from the starting position, a
    move being pushed as [make_move] pushes it. *)
Inductive played : Board -> Prop :=
| played_start : played starting
| played_push b m :
    played b -> move_in m (legal_moves b) = true ->
    played (push b (normalized b m)).

(** The ways [handle_event] can end. *)
Inductive click_outcome (g : ChessGame.t) : Py.outcome unit * ChessGame.t -> Prop :=
| click_ignored : click_outcome g (Py.Return tt, g)
| click_raises e :
    game_over g = false /\ two_player_mode g = None \/
    SQUARE_SIZE g = 0 \/
    (exists sel m, selected_square g = Some sel /\ from_square m = sel /\
                   move_in m (valid_moves g) = true /\
                   piece_at (board g) sel = None) ->
    click_outcome g (Py.Raise e, g)
| click_selects sq p :
    selected_square g = None ->
    piece_at (board g) sq = Some p -> color p = turn (board g) ->
    (two_player_mode g = Some false -> turn (board g) = player_color g) ->
    click_outcome g
      (Py.Return tt,
       set_valid_moves
         (filter (fun move => from_square move =? sq) (legal_moves (board g)))
         (set_selected_square (Some sq) g))
| click_deselects sel :
    selected_square g = Some sel ->
    click_outcome g (Py.Return tt, set_valid_moves [] (set_selected_square None g))
| click_moves sel m :
    selected_square g = Some sel ->
    click_outcome g
      (Py.Return tt,
       set_valid_moves [] (set_selected_square None (snd (make_move m g)))).

(** The object after a click has selected [sq]. *)
Definition selected (g : ChessGame.t) (sq : Square) : ChessGame.t :=
  set_valid_moves
    (filter (fun move => from_square move =? sq) (legal_moves (board g)))
    (set_selected_square (Some sq) g).

(** The object after a click has dropped the selection. *)
Definition deselected (g : ChessGame.t) : ChessGame.t :=
  set_valid_moves [] (set_selected_square None g).

(** Whether [handle_event] acts on a left click: the game is running and
    the side to move is played by a human. *)
Definition accepts_clicks (g : ChessGame.t) : Prop :=
  game_over g = false /\
  (two_player_mode g = Some true \/
   two_player_mode g = Some false /\ turn (board g) = player_color g).

(** [pos] is a pixel of the square at [file], [rank] as [draw_board] and
    [draw_highlights] place it (lines 450-451 and 521-522). *)
Definition inside_square (g : ChessGame.t) (file rank : Z) (pos : Z * Z) : Prop :=
  0 <= file < 8 /\ 0 <= rank < 8 /\
  BOARD_OFFSET g + file * SQUARE_SIZE g <= fst pos
    < BOARD_OFFSET g + (file + 1) * SQUARE_SIZE g /\
  BOARD_OFFSET g + (7 - rank) * SQUARE_SIZE g <= snd pos
    < BOARD_OFFSET g + (7 - rank + 1) * SQUARE_SIZE g.

(** Whether an event is a left click inside the button. *)
Definition hits (b : Button.t) (e : Event) : bool :=
  match e with
  | MOUSEBUTTONDOWN button pos => (button =? 1) && Rect.collidepoint (Button.rect b) pos
  | _ => false
  end.

(** Several method calls in a row. *)
Inductive steps (g : ChessGame.t) : ChessGame.t -> Prop :=
| steps_refl : steps g g
| steps_step g1 g2 : steps g g1 -> step g1 g2 -> steps g g2.

(** Every button calls the method its label names. *)
Definition wired (w : Window.t) : Prop :=
  map Button.callback (Window.menu_buttons w)
  = [Button.start_vs_computer; Button.start_vs_human] /\
  map Button.callback (Window.game_buttons w)
  = [Button.restart_game; Button.resign; Button.show_menu] /\
  map Button.callback (Window.game_over_buttons w) = [Button.show_menu].

Definition wired_after (r : Run.flow * Window.t) : Prop := wired (snd r).

(** A call ended well when it returned a value that satisfies [P]; it
    can only have raised if the squares have size 0. *)
Definition ends_well {A : Type} (P : A -> Prop) (g : ChessGame.t)
  (o : Py.outcome A) : Prop :=
  match o with
  | Py.Return a => P a
  | Py.Raise _ => SQUARE_SIZE g = 0
  end.

End WithRules.
End Play.

(** ** An executable rules collaborator

    Positions are a piece placement and the side to move.  Moves are
    generated as python-chess does for pawns (pushes, double pushes,
    captures, the four promotions), knights, bishops, rooks, queens and
    kings, and kept when they leave the mover's king unattacked.  Castling
    rights and the en-passant square are not tracked, so no castling and no
    en-passant capture is listed. *)

Module MiniChess.
Import Chess.

Record position : Type := mkPos {
  pieces : Square -> option Piece;
  to_move : Color
}.

Definition put (ps : Square -> option Piece) (sq : Square) (p : option Piece)
  : Square -> option Piece :=
  fun s => if s =? sq then p else ps s.

Definition on_board (f r : Z) : bool :=
  (0 <=? f) && (f <? 8) && (0 <=? r) && (r <? 8).

Definition squares : list Square := map Z.of_nat (seq 0 64).

(** Squares seen from [(f, r)] along [(df, dr)], up to and including the
    first occupied one. *)
Fixpoint ray (fuel : nat) (ps : Square -> option Piece) (f r df dr : Z)
  : list Square :=
  match fuel with
  | O => []
  | S k =>
      let f' := f + df in
      let r' := r + dr in
      if on_board f' r' then
        match ps (square f' r') with
        | None => square f' r' :: ray k ps f' r' df dr
        | Some _ => [square f' r']
        end
      else []
  end.

Definition knight_steps : list (Z * Z) :=
  [(1, 2); (2, 1); (2, -1); (1, -2); (-1, -2); (-2, -1); (-2, 1); (-1, 2)].
Definition king_steps : list (Z * Z) :=
  [(1, 0); (1, 1); (0, 1); (-1, 1); (-1, 0); (-1, -1); (0, -1); (1, -1)].
Definition rook_dirs : list (Z * Z) := [(1, 0); (0, 1); (-1, 0); (0, -1)].
Definition bishop_dirs : list (Z * Z) := [(1, 1); (-1, 1); (-1, -1); (1, -1)].

Definition leaps (f r : Z) (steps : list (Z * Z)) : list Square :=
  flat_map (fun d => if on_board (f + fst d) (r + snd d)
                     then [square (f + fst d) (r + snd d)] else []) steps.

Definition slides (ps : Square -> option Piece) (f r : Z) (dirs : list (Z * Z))
  : list Square :=
  flat_map (fun d => ray 7 ps f r (fst d) (snd d)) dirs.

(** The squares attacked by piece [p] standing on [sq]. *)
Definition attacks (ps : Square -> option Piece) (sq : Square) (p : Piece)
  : list Square :=
  let f := square_file sq in
  let r := square_rank sq in
  match piece_type p with
  | PAWN => let dr := if color p then 1 else -1 in leaps f r [(-1, dr); (1, dr)]
  | KNIGHT => leaps f r knight_steps
  | BISHOP => slides ps f r bishop_dirs
  | ROOK => slides ps f r rook_dirs
  | QUEEN => slides ps f r (rook_dirs ++ bishop_dirs)
  | KING => leaps f r king_steps
  end.

Definition occupied_by (ps : Square -> option Piece) (c : Color) (sq : Square)
  : bool :=
  match ps sq with
  | Some p => Bool.eqb (color p) c
  | None => false
  end.

Definition is_attacked_by (ps : Square -> option Piece) (c : Color)
  (target : Square) : bool :=
  existsb (fun sq => match ps sq with
                     | Some p => Bool.eqb (color p) c &&
                                 existsb (Z.eqb target) (attacks ps sq p)
                     | None => false
                     end) squares.

Definition king (ps : Square -> option Piece) (c : Color) : option Square :=
  find (fun sq => match ps sq with
                  | Some p => PieceType_eqb (piece_type p) KING &&
                              Bool.eqb (color p) c
                  | None => false
                  end) squares.

Definition promotions (from to : Square) : list Move :=
  [mkMove from to (Some QUEEN); mkMove from to (Some ROOK);
   mkMove from to (Some BISHOP); mkMove from to (Some KNIGHT)].

(** A pawn step to [to]: the four promotions on the last rank, the plain
    move elsewhere. *)
Definition pawn_move (c : Color) (from to : Square) : list Move :=
  if square_rank to =? (if c then 7 else 0)
  then promotions from to else [mkMove from to None].

Definition pawn_targets (ps : Square -> option Piece) (c : Color) (sq : Square)
  : list Square :=
  let f := square_file sq in
  let r := square_rank sq in
  let dr := if c then 1 else -1 in
  let captures := filter (occupied_by ps (negb c)) (leaps f r [(-1, dr); (1, dr)]) in
  let one :=
    if on_board f (r + dr) then
      match ps (square f (r + dr)) with
      | None => [square f (r + dr)]
      | Some _ => []
      end
    else [] in
  let two :=
    if r =? (if c then 1 else 6) then
      match ps (square f (r + dr)), ps (square f (r + 2 * dr)) with
      | None, None => [square f (r + 2 * dr)]
      | _, _ => []
      end
    else [] in
  captures ++ one ++ two.

Definition piece_moves (ps : Square -> option Piece) (c : Color) (sq : Square)
  (p : Piece) : list Move :=
  match piece_type p with
  | PAWN => flat_map (pawn_move c sq) (pawn_targets ps c sq)
  | _ => map (fun to => mkMove sq to None)
             (filter (fun to => negb (occupied_by ps c to)) (attacks ps sq p))
  end.

Definition pseudo_legal_moves (b : position) : list Move :=
  flat_map (fun sq => match pieces b sq with
                      | Some p => if Bool.eqb (color p) (to_move b)
                                  then piece_moves (pieces b) (to_move b) sq p
                                  else []
                      | None => []
                      end) squares.

(** The placement after a move by side [c]: the origin is emptied and the
    destination takes the moved (or promoted-to) piece in colour [c]. *)
Definition moved (ps : Square -> option Piece) (c : Color) (m : Move)
  : Square -> option Piece :=
  match ps (from_square m) with
  | None => ps
  | Some p =>
      put (put ps (from_square m) None) (to_square m)
          (Some (mkPiece (match promotion m with
                          | Some pt => pt
                          | None => piece_type p
                          end) c))
  end.

Definition leaves_king_safe (b : position) (m : Move) : bool :=
  let ps' := moved (pieces b) (to_move b) m in
  match king ps' (to_move b) with
  | None => true
  | Some k => negb (is_attacked_by ps' (negb (to_move b)) k)
  end.

Definition legal_moves (b : position) : list Move :=
  filter (leaves_king_safe b) (pseudo_legal_moves b).

Definition push (b : position) (m : Move) : position :=
  mkPos (moved (pieces b) (to_move b) m) (negb (to_move b)).

Definition is_check (b : position) : bool :=
  match king (pieces b) (to_move b) with
  | None => false
  | Some k => is_attacked_by (pieces b) (negb (to_move b)) k
  end.

Definition no_moves (b : position) : bool :=
  match legal_moves b with [] => true | _ => false end.

Definition is_checkmate (b : position) : bool := is_check b && no_moves b.
Definition is_stalemate (b : position) : bool := negb (is_check b) && no_moves b.

Definition any_piece (ps : Square -> option Piece) (f : Square -> Piece -> bool)
  : bool :=
  existsb (fun sq => match ps sq with Some p => f sq p | None => false end) squares.

Definition is_type (ty : PieceType) (p : Piece) : bool :=
  PieceType_eqb (piece_type p) ty.

Definition dark (sq : Square) : bool :=
  Z.even (square_file sq + square_rank sq).

(** [has_insufficient_material(color)] of python-chess. *)
Definition has_insufficient_material (ps : Square -> option Piece) (c : Color)
  : bool :=
  let mine p := Bool.eqb (color p) c in
  if any_piece ps (fun _ p => mine p &&
                     (is_type PAWN p || is_type ROOK p || is_type QUEEN p))
  then false
  else if any_piece ps (fun _ p => mine p && is_type KNIGHT p) then
    (Z.of_nat (List.length (filter (occupied_by ps c) squares)) <=? 2) &&
    negb (any_piece ps (fun _ p => negb (mine p) &&
                          negb (is_type KING p) && negb (is_type QUEEN p)))
  else if any_piece ps (fun _ p => mine p && is_type BISHOP p) then
    (negb (any_piece ps (fun sq p => is_type BISHOP p && dark sq)) ||
     negb (any_piece ps (fun sq p => is_type BISHOP p && negb (dark sq)))) &&
    negb (any_piece ps (fun _ p => is_type PAWN p)) &&
    negb (any_piece ps (fun _ p => is_type KNIGHT p))
  else true.

Definition is_insufficient_material (b : position) : bool :=
  has_insufficient_material (pieces b) true &&
  has_insufficient_material (pieces b) false.

Definition back_rank : list PieceType :=
  [ROOK; KNIGHT; BISHOP; QUEEN; KING; BISHOP; KNIGHT; ROOK].

(** The starting position of chess. *)
Definition starting : position :=
  mkPos (fun sq =>
           let f := square_file sq in
           let r := square_rank sq in
           if negb (on_board f r) then None
           else if r =? 0 then Some (mkPiece (nth (Z.to_nat f) back_rank PAWN) WHITE)
           else if r =? 1 then Some (mkPiece PAWN WHITE)
           else if r =? 6 then Some (mkPiece PAWN BLACK)
           else if r =? 7 then Some (mkPiece (nth (Z.to_nat f) back_rank PAWN) BLACK)
           else None)
        WHITE.

(** [board.clear()] followed by [set_piece_at] calls and [board.turn = c]. *)
Definition empty_board (c : Color) : position := mkPos (fun _ => None) c.
Definition set_piece_at (b : position) (sq : Square) (p : Piece) : position :=
  mkPos (put (pieces b) sq (Some p)) (to_move b).

(** *** The instance meets the interface's laws *)

Lemma Move_eqb_eq (a b : Move) : Move_eqb a b = true -> a = b.
Proof.
  destruct a as [fa ta pa], b as [fb tb pb]; unfold Move_eqb; simpl.
  rewrite !andb_true_iff, !Z.eqb_eq.
  intros [[-> ->] Hp]; f_equal.
  destruct pa as [x|], pb as [y|]; try discriminate; auto.
  destruct x, y; try discriminate; reflexivity.
Qed.

Lemma move_in_In (m : Move) (l : list Move) : move_in m l = true -> In m l.
Proof.
  unfold move_in; rewrite existsb_exists.
  intros [x [Hin Heq]]; apply Move_eqb_eq in Heq; subst; exact Hin.
Qed.

Lemma pawn_move_shape (c : Color) (sq to : Square) (m : Move) :
  In m (pawn_move c sq to) ->
  from_square m = sq /\ to_square m = to /\
  (square_rank to = (if c then 7 else 0) -> promotion m <> None).
Proof.
  unfold pawn_move, promotions.
  destruct (square_rank to =? (if c then 7 else 0)) eqn:E; simpl.
  - intros [<-|[<-|[<-|[<-|[]]]]]; simpl; repeat split; discriminate.
  - intros [<-|[]]; simpl; repeat split.
    intros H; apply Z.eqb_neq in E; contradiction.
Qed.

Lemma piece_moves_from (ps : Square -> option Piece) (c : Color) (sq : Square)
  (p : Piece) (m : Move) :
  In m (piece_moves ps c sq p) -> from_square m = sq.
Proof.
  unfold piece_moves; destruct (piece_type p);
    try (rewrite in_map_iff; intros [to [<- _]]; reflexivity).
  rewrite in_flat_map; intros [to [_ H]].
  apply pawn_move_shape in H; tauto.
Qed.

Lemma pseudo_legal_origin (b : position) (m : Move) :
  In m (pseudo_legal_moves b) ->
  exists p, pieces b (from_square m) = Some p /\ color p = to_move b /\
            In m (piece_moves (pieces b) (to_move b) (from_square m) p).
Proof.
  unfold pseudo_legal_moves; rewrite in_flat_map; intros [sq [_ H]].
  destruct (pieces b sq) as [p|] eqn:Hp; [|contradiction].
  destruct (Bool.eqb (color p) (to_move b)) eqn:Hc; [|contradiction].
  pose proof (piece_moves_from _ _ _ _ _ H) as Hf; subst sq.
  exists p; repeat split; auto. apply eqb_prop; exact Hc.
Qed.

Lemma legal_is_pseudo_legal (b : position) (m : Move) :
  move_in m (legal_moves b) = true -> In m (pseudo_legal_moves b).
Proof.
  intros H; apply move_in_In in H.
  unfold legal_moves in H; apply filter_In in H; tauto.
Qed.

Lemma position_legal_occupied (b : position) (m : Move) :
  move_in m (legal_moves b) = true -> pieces b (from_square m) <> None.
Proof.
  intros H; apply legal_is_pseudo_legal, pseudo_legal_origin in H.
  destruct H as [p [Hp _]]; congruence.
Qed.

Lemma position_push_turn (b : position) (m : Move) :
  to_move (push b m) = negb (to_move b).
Proof. reflexivity. Qed.

Lemma position_push_promotion (b : position) (m : Move) (pt : PieceType) :
  pieces b (from_square m) <> None ->
  promotion m = Some pt -> pt <> KING ->
  pieces (push b m) (to_square m) = Some (mkPiece pt (to_move b)).
Proof.
  intros Hocc Hpt _; unfold push, moved; simpl.
  destruct (pieces b (from_square m)); [|contradiction].
  unfold put; rewrite Z.eqb_refl, Hpt; reflexivity.
Qed.

Lemma position_legal_pawn_promotes (b : position) (m : Move) (c : Color) :
  move_in m (legal_moves b) = true ->
  pieces b (from_square m) = Some (mkPiece PAWN c) ->
  square_rank (to_square m) = (if c then 7 else 0) ->
  promotion m <> None.
Proof.
  intros H Hp Hr; apply legal_is_pseudo_legal, pseudo_legal_origin in H.
  destruct H as [p [Hp' [Hc Hin]]].
  rewrite Hp in Hp'; injection Hp' as <-; simpl in Hc; subst c.
  unfold piece_moves in Hin; simpl in Hin.
  apply in_flat_map in Hin; destruct Hin as [to [_ Hin]].
  apply pawn_move_shape in Hin; destruct Hin as [_ [Hto Hprom]].
  apply Hprom; rewrite <- Hto; exact Hr.
Qed.

(** The instance: [chess.Board] played by [position]. *)
Definition rules : ChessRules :=
  {| Chess.Board := position;
     Chess.starting := starting;
     Chess.legal_moves := legal_moves;
     Chess.piece_at := pieces;
     Chess.turn := to_move;
     Chess.push := push;
     Chess.is_checkmate := is_checkmate;
     Chess.is_stalemate := is_stalemate;
     Chess.is_insufficient_material := is_insufficient_material;
     Chess.legal_occupied := position_legal_occupied;
     Chess.push_turn := position_push_turn;
     Chess.push_promotion := position_push_promotion;
     Chess.legal_pawn_promotes := position_legal_pawn_promotes |}.

End MiniChess.

(** ** Concrete games on the executable rules *)

Module Scenario.
Import Chess Engine ChessGame.

(** Squares by their python-chess names. *)
Definition E2 : Square := 12.
Definition E4 : Square := 28.
Definition E5 : Square := 36.
Definition E7 : Square := 52.
Definition F2 : Square := 13.
Definition F3 : Square := 21.
Definition G2 : Square := 14.
Definition G4 : Square := 30.
Definition D8 : Square := 59.
Definition H4 : Square := 31.
Definition B7 : Square := 49.
Definition B8 : Square := 57.

(** An engine that launches from any path, and one found at no path. *)
Definition popen_ok : popen_uci_t := fun path => Py.Return (mkEngine path).
Definition popen_missing : popen_uci_t :=
  fun path => Py.Raise (Py.Exception "[Errno 2] No such file or directory").

(** Engines that answer without a move, fail, or have died. *)
Definition play_no_move : play_t MiniChess.position :=
  fun _ _ => Py.Return None.
Definition play_error : play_t MiniChess.position :=
  fun _ _ => Py.Raise (Py.Exception "engine sent invalid data").
Definition play_terminated : play_t MiniChess.position :=
  fun _ _ => Py.Raise (Py.EngineTerminatedError "engine process died").

(** [ChessGame()] on a 1200x800 display, with and without Stockfish. *)
Definition fresh : ChessGame.t (R := MiniChess.rules) :=
  init (R := MiniChess.rules) (1200, 800) popen_ok.
Definition fresh_without_engine : ChessGame.t (R := MiniChess.rules) :=
  init (R := MiniChess.rules) (1200, 800) popen_missing.

Definition vs_friend : ChessGame.t (R := MiniChess.rules) :=
  snd (start_vs_human fresh).
Definition vs_computer : ChessGame.t (R := MiniChess.rules) :=
  snd (start_vs_computer popen_ok fresh).

(** A left click in the middle of a square of that display. *)
Definition click (sq : Square) : Event :=
  MOUSEBUTTONDOWN 1 (50 + square_file sq * 87 + 43,
                     50 + (7 - square_rank sq) * 87 + 43).

(** The position of [test_pawn_promotion]: a lone white pawn on b7, White
    to move. *)
Definition pawn_b7 : MiniChess.position :=
  MiniChess.set_piece_at (MiniChess.empty_board WHITE) B7 (mkPiece PAWN WHITE).
Definition pawn_game : ChessGame.t (R := MiniChess.rules) :=
  set_board (R := MiniChess.rules) pawn_b7 vs_friend.

(** Fool's mate: 1. f3 e5 2. g4 Qh4#. *)
Definition fools_mate_opening : list Move :=
  [mkMove F2 F3 None; mkMove E7 E5 None; mkMove G2 G4 None].
Definition fools_mate_move : Move := mkMove D8 H4 None.

(** A vs-computer game in which the human has played e2-e4, the animation
    has run its thirteen frames, and the engine asked at time 5000 has
    answered without a move: the request stays in flight. *)
Definition after_e4 : ChessGame.t (R := MiniChess.rules) :=
  snd (handle_event (click E4) (snd (handle_event (click E2) vs_computer))).
Definition frame (g : ChessGame.t (R := MiniChess.rules))
  : ChessGame.t (R := MiniChess.rules) :=
  snd (run_update (R := MiniChess.rules) 5000 play_no_move g).
Definition waiting : ChessGame.t (R := MiniChess.rules) :=
  Nat.iter 13 frame after_e4.

(** The pawn of [pawn_game] clicked, then the square in front of it. *)
Definition promotion_clicks : ChessGame.t (R := MiniChess.rules) :=
  snd (handle_event (click B8) (snd (handle_event (click B7) pawn_game))).

End Scenario.

(** ** More games to try the properties on *)

Module Games.
Import Chess Engine ChessGame.

Definition A1 : Square := 0.
Definition A2 : Square := 8.
Definition B2 : Square := 9.
Definition A4 : Square := 24.
Definition B5 : Square := 33.
Definition H5 : Square := 39.
Definition A6 : Square := 40.
Definition F6 : Square := 45.
Definition A7 : Square := 48.
Definition G8 : Square := 62.
Definition H8 : Square := 63.

(** Left clicks in the middle of the given squares, one after the other. *)
Definition clicks (squares : list Square) (g : ChessGame.t (R := MiniChess.rules))
  : ChessGame.t (R := MiniChess.rules) :=
  fold_left (fun g sq => snd (handle_event (Scenario.click sq) g)) squares g.

(** A game between friends with the pawn on e2 selected. *)
Definition e2_selected : ChessGame.t (R := MiniChess.rules) :=
  clicks [Scenario.E2] Scenario.vs_friend.

(** A game between friends after 1. a4 b5 2. axb5 a6 3. bxa6 Nf6 4. a7 Nh5,
    with the pawn on a7 then selected: it could take the knight on b8 and
    promote. *)
Definition a7_selected : ChessGame.t (R := MiniChess.rules) :=
  clicks [A2; A4; Scenario.B7; B5; A4; B5; A7; A6; B5; A6; G8; F6; A6; A7;
          F6; H5; A7]
    Scenario.vs_friend.

(** A game between friends that White has resigned. *)
Definition resigned : ChessGame.t (R := MiniChess.rules) :=
  snd (resign Scenario.vs_friend).

(** White king on a1 next to a black knight on b2, black king on h8,
    White to move: taking the knight leaves the two kings. *)
Definition knight_b2 : MiniChess.position :=
  MiniChess.set_piece_at
    (MiniChess.set_piece_at
       (MiniChess.set_piece_at (MiniChess.empty_board WHITE) A1 (mkPiece KING WHITE))
       H8 (mkPiece KING BLACK))
    B2 (mkPiece KNIGHT BLACK).
Definition knight_game : ChessGame.t (R := MiniChess.rules) :=
  set_board (R := MiniChess.rules) knight_b2 Scenario.vs_friend.


(** The window on a 1200x800 display. *)
Definition window : Window.t := Window.init (1200, 800).

(** A pass with a click on e2 and the ESC key in its queue. *)
Definition pass : Run.input (R := MiniChess.rules) :=
  Run.mk_input (R := MiniChess.rules) 5000
    [Scenario.click Scenario.E2; KEYDOWN Run.K_ESCAPE]
    Scenario.play_no_move Scenario.popen_ok (1920, 1080).

(** A left click inside the sidebar's Restart Game button of [window]. *)
Definition click_restart : Event := MOUSEBUTTONDOWN 1 (900, 670).


(** A vs-computer game in which the human has played e2-e4 and the
    animation has run twelve of its thirteen frames. *)
Definition landing : ChessGame.t (R := MiniChess.rules) :=
  Nat.iter 12 Scenario.frame Scenario.after_e4.

(** An engine that answers e7-e5. *)
Definition play_e7e5 : play_t MiniChess.position :=
  fun _ _ => Py.Return (Some (mkMove Scenario.E7 Scenario.E5 None)).

(** A pass with the ESC key pressed twice, on a 1920x1080 desktop. *)
Definition pass_esc : Run.input (R := MiniChess.rules) :=
  Run.mk_input (R := MiniChess.rules) 5000
    [KEYDOWN Run.K_ESCAPE; KEYDOWN Run.K_ESCAPE]
    Scenario.play_no_move Scenario.popen_ok (1920, 1080).

End Games.

(** * Properties of the animation *)

Module AnimationFacts.
Import AnimatedPiece.

Lemma update_progress (p : t) :
  progress (snd (update p)) = Py.min 1.0%float (progress p + ANIMATION_SPEED)%float.
Proof. reflexivity. Qed.

Lemma update_result (p : t) :
  fst (update p) = (1.0 <=? progress (snd (update p)))%float.
Proof. reflexivity. Qed.

Lemma updates_S (n : nat) (p : t) :
  updates (S n) p =
  (fst (update p) :: fst (updates n (snd (update p))),
   snd (updates n (snd (update p)))).
Proof.
  cbn [updates]. destruct (update p) as [r p1]. cbn [fst snd].
  destruct (updates n p1); reflexivity.
Qed.

(** The last of [n + 1] calls acts on what the first [n] left. *)
Lemma updates_snoc (n : nat) (p : t) :
  updates (S n) p =
  ((fst (updates n p) ++ [fst (update (snd (updates n p)))])%list,
   snd (update (snd (updates n p)))).
Proof.
  revert p; induction n as [|n IH]; intros p.
  - cbn [updates fst snd app]. destruct (update p); reflexivity.
  - rewrite updates_S, (IH (snd (update p))), updates_S. reflexivity.
Qed.

Lemma progress_updates (n : nat) (ty c : string) (s e : Z * Z) :
  progress (snd (updates n (init ty c s e))) = progress_after n.
Proof.
  induction n as [|n IH].
  - reflexivity.
  - rewrite updates_snoc. cbn [snd]. rewrite update_progress, IH. reflexivity.
Qed.

Lemma progress_after_done (k : nat) : progress_after (13 + k) = 1.0%float.
Proof.
  induction k as [|k IH].
  - vm_compute. reflexivity.
  - replace (13 + S k)%nat with (S (13 + k)) by lia.
    cbn [progress_after]. rewrite IH. vm_compute. reflexivity.
Qed.

Lemma progress_after_running (n : nat) :
  (n < 13)%nat -> (progress_after n <? 1.0)%float = true.
Proof.
  intros H. do 13 (destruct n as [|n]; [vm_compute; reflexivity|]). lia.
Qed.

Lemma progress_after_mono (n : nat) :
  (progress_after n <=? progress_after (S n))%float = true.
Proof.
  destruct (Nat.lt_ge_cases n 13) as [H|H].
  - do 13 (destruct n as [|n]; [vm_compute; reflexivity|]). lia.
  - replace n with (13 + (n - 13))%nat by lia.
    replace (S (13 + (n - 13))) with (13 + S (n - 13))%nat by lia.
    rewrite !progress_after_done. vm_compute; reflexivity.
Qed.

(** Call number [k] on a new piece returns true exactly when [k >= 13]. *)
Lemma result_of_call (k : nat) :
  (1.0 <=? progress_after k)%float = Nat.leb 13 k.
Proof.
  destruct (Nat.lt_ge_cases k 13) as [H|H].
  - do 13 (destruct k as [|k]; [vm_compute; reflexivity|]). lia.
  - replace k with (13 + (k - 13))%nat at 1 by lia.
    rewrite progress_after_done.
    symmetry; transitivity true; [apply Nat.leb_le; exact H|].
    vm_compute; reflexivity.
Qed.

Lemma results_of_updates (n : nat) (ty c : string) (s e : Z * Z) :
  fst (updates n (init ty c s e)) = map (Nat.leb 13) (seq 1 n).
Proof.
  induction n as [|n IH].
  - reflexivity.
  - rewrite updates_snoc. cbn [fst]. rewrite IH, update_result, update_progress.
    rewrite progress_updates.
    change (Py.min 1.0%float (progress_after n + ANIMATION_SPEED)%float)
      with (progress_after (S n)).
    rewrite result_of_call, seq_S, map_app. reflexivity.
Qed.

Lemma update_pieces_single (p : t) :
  ChessGame.update_pieces [p] =
  if fst (update p) then [] else [snd (update p)].
Proof.
  cbn [ChessGame.update_pieces]. destruct (update p) as [[|] p1]; reflexivity.
Qed.

(** In the [run] loop a new piece is still listed after [n <= 12] passes,
    in the state [n] calls of [update] gave it. *)
Lemma frames_keep_piece (n : nat) (ty c : string) (s e : Z * Z) :
  (n <= 12)%nat ->
  Nat.iter n ChessGame.update_pieces [init ty c s e] =
  [snd (updates n (init ty c s e))].
Proof.
  induction n as [|n IH]; intros H.
  - reflexivity.
  - rewrite Nat.iter_succ, IH by lia. rewrite update_pieces_single, updates_snoc.
    cbn [snd]. rewrite update_result, update_progress, progress_updates.
    change (Py.min 1.0%float (progress_after n + ANIMATION_SPEED)%float)
      with (progress_after (S n)).
    rewrite result_of_call.
    destruct (Nat.leb 13 (S n)) eqn:E; [apply Nat.leb_le in E; lia|reflexivity].
Qed.

Lemma frames_drop_piece (ty c : string) (s e : Z * Z) :
  Nat.iter 13 ChessGame.update_pieces [init ty c s e] = [].
Proof.
  rewrite Nat.iter_succ, frames_keep_piece by lia.
  rewrite update_pieces_single, update_result, update_progress, progress_updates.
  change (Py.min 1.0%float (progress_after 12 + ANIMATION_SPEED)%float)
    with (progress_after 13).
  rewrite result_of_call. reflexivity.
Qed.

End AnimationFacts.

Lemma ease_is_spec (t : float) : AnimatedPiece.ease t = AnimatedPiece.ease_spec t.
Proof. reflexivity. Qed.

Lemma eased_differs_from_raw (n : nat) :
  (1 <= n <= 12)%nat ->
  (AnimatedPiece.ease_spec (AnimatedPiece.progress_after n)
   =? AnimatedPiece.progress_after n)%float = false.
Proof.
  intros [H1 H2]. destruct n as [|n]; [lia|].
  do 12 (destruct n as [|n]; [vm_compute; reflexivity|]). lia.
Qed.

(** C8, as the code has it.  For a piece made by [AnimatedPiece(...)] and
    any number [n] of [update] calls: [progress] never decreases from one
    call to the next; call number [k] returns true exactly when [k >= 13],
    that is on the call where progress first reaches 1.0 and on every call
    after it; and in the [run] loop, which drops a piece as soon as its
    [update] returns true, the piece is listed through twelve passes and
    gone after the thirteenth, so there it is updated thirteen times and
    sees true once, on its last call. *)
Theorem update_true_from_completion_on
  (ty c : string) (s e : Z * Z) (n : nat) :
  (AnimatedPiece.progress (snd (AnimatedPiece.updates n (AnimatedPiece.init ty c s e)))
   <=? AnimatedPiece.progress
         (snd (AnimatedPiece.updates (S n) (AnimatedPiece.init ty c s e))))%float
  = true /\
  fst (AnimatedPiece.updates n (AnimatedPiece.init ty c s e))
  = map (Nat.leb 13) (seq 1 n) /\
  ((n <= 12)%nat ->
   Nat.iter n ChessGame.update_pieces [AnimatedPiece.init ty c s e]
   = [snd (AnimatedPiece.updates n (AnimatedPiece.init ty c s e))]) /\
  Nat.iter 13 ChessGame.update_pieces [AnimatedPiece.init ty c s e] = [].
Proof.
  split; [|split; [|split]].
  - rewrite !AnimationFacts.progress_updates.
    apply AnimationFacts.progress_after_mono.
  - apply AnimationFacts.results_of_updates.
  - apply AnimationFacts.frames_keep_piece.
  - apply AnimationFacts.frames_drop_piece.
Qed.

(** C8, counterexample to the claim as stated: on the piece of the
    repository's test, fourteen [update] calls return true twice, on the
    thirteenth and again on the fourteenth. *)
Lemma update_true_again_after_completion :
  fst (AnimatedPiece.updates 14 (AnimatedPiece.init "p" "b" (0, 0) (100, 100)))
  = [false; false; false; false; false; false; false; false; false; false;
     false; false; true; true] /\
  count_occ Bool.bool_dec
    (fst (AnimatedPiece.updates 14 (AnimatedPiece.init "p" "b" (0, 0) (100, 100))))
    true = 2%nat.
Proof. split; vm_compute; reflexivity. Qed.

(** C9.  Every [update] adds the step 0.08 to [progress], clamped at 1.0;
    on a new piece progress is below 1.0 after each of the first twelve
    calls and is 1.0 after the thirteenth; every call leaves [current_pos]
    at [start + (end - start) * ease], with [ease] the eased progress as
    the specification words it; and through calls 1 to 12 the eased value
    differs from the raw progress. *)
Theorem animation_completes_on_thirteenth_update (ty c : string) (s e : Z * Z) :
  (forall p : AnimatedPiece.t,
     AnimatedPiece.progress (snd (AnimatedPiece.update p))
     = Py.min 1.0%float (AnimatedPiece.progress p + 0.08)%float) /\
  (forall n : nat, (n < 13)%nat ->
     (AnimatedPiece.progress
        (snd (AnimatedPiece.updates n (AnimatedPiece.init ty c s e)))
      <? 1.0)%float = true) /\
  AnimatedPiece.progress
    (snd (AnimatedPiece.updates 13 (AnimatedPiece.init ty c s e))) = 1.0%float /\
  (forall p : AnimatedPiece.t,
     let t := AnimatedPiece.progress (snd (AnimatedPiece.update p)) in
     let sx := fst (AnimatedPiece.start_pos p) in
     let sy := snd (AnimatedPiece.start_pos p) in
     let ex := fst (AnimatedPiece.end_pos p) in
     let ey := snd (AnimatedPiece.end_pos p) in
     AnimatedPiece.current_pos (snd (AnimatedPiece.update p))
     = (Py.Float (Py.float_of_Z sx
                  + Py.float_of_Z (ex - sx) * AnimatedPiece.ease_spec t)%float,
        Py.Float (Py.float_of_Z sy
                  + Py.float_of_Z (ey - sy) * AnimatedPiece.ease_spec t)%float)) /\
  (forall n : nat, (1 <= n <= 12)%nat ->
     let t := AnimatedPiece.progress
                (snd (AnimatedPiece.updates n (AnimatedPiece.init ty c s e))) in
     (AnimatedPiece.ease_spec t =? t)%float = false).
Proof.
  split; [|split; [|split; [|split]]].
  - intros p. reflexivity.
  - intros n H. rewrite AnimationFacts.progress_updates.
    apply AnimationFacts.progress_after_running; exact H.
  - rewrite AnimationFacts.progress_updates.
    exact (AnimationFacts.progress_after_done 0).
  - intros p. reflexivity.
  - intros n H t. subst t. rewrite AnimationFacts.progress_updates.
    apply eased_differs_from_raw; exact H.
Qed.

(** * Properties of the controller *)

(** Unfolds the methods down to the state passing. *)
Ltac run_methods :=
  unfold ChessGame.run_update, ChessGame.computer_turn,
    ChessGame.update_animations, ChessGame.make_computer_move,
    ChessGame.handle_event, ChessGame.restart_game, ChessGame.start_game,
    ChessGame.start_vs_human, ChessGame.start_vs_computer,
    ChessGame.init_engine, ChessGame.show_menu, ChessGame.resign,
    ChessGame.select_square, ChessGame.make_move, ChessGame.check_game_over,
    ChessGame.get_two_player_mode, ChessGame.print, ChessGame.try_except,
    ChessGame.call, ChessGame.modify, ChessGame.get, ChessGame.raise,
    ChessGame.bind, ChessGame.ret in *.

Ltac is_atomic x :=
  lazymatch x with
  | context [match _ with _ => _ end] => fail
  | context [if _ then _ else _] => fail
  | _ => idtac
  end.

(** Splits on the innermost test the goal still branches on. *)
Ltac split_case :=
  match goal with
  | |- context [match ?x with _ => _ end] => is_atomic x; destruct x eqn:?
  | |- context [if ?x then _ else _] => is_atomic x; destruct x eqn:?
  end.

Ltac split_cases :=
  cbn -[String.eqb Z.sub Z.gtb Z.div] in *;
  repeat (split_case; cbn -[String.eqb Z.sub Z.gtb Z.div] in *).

Module GameFacts.
Import Chess Engine ChessGame Outcome.

Section WithRules.
Context {R : ChessRules}.

Lemma check_game_over_checked (g : ChessGame.t) :
  check_game_over g = (Py.Return tt, checked g).
Proof.
  unfold check_game_over, checked, bind, get, modify, ret; cbn.
  destruct (is_checkmate (board g)); cbn.
  - destruct (turn (board g)), (player_color g); reflexivity.
  - destruct (is_stalemate (board g) || is_insufficient_material (board g));
      reflexivity.
Qed.

(** [check_game_over] touches nothing but [game_over] and [winner]. *)
Lemma checked_frame (g : ChessGame.t) :
  board (checked g) = board g /\
  animated_pieces (checked g) = animated_pieces g /\
  player_color (checked g) = player_color g /\
  stdout (checked g) = stdout g.
Proof.
  unfold checked.
  destruct (is_checkmate (board g) || is_stalemate (board g)
            || is_insufficient_material (board g)); repeat split.
Qed.

Lemma normalized_squares (b : Board) (m : Move) :
  from_square (normalized b m) = from_square m /\
  to_square (normalized b m) = to_square m.
Proof.
  unfold normalized; destruct (pawn_reaches_last_rank _ _); split; reflexivity.
Qed.

Lemma make_move_illegal (g : ChessGame.t) (m : Move) :
  move_in m (legal_moves (board g)) = false -> make_move m g = (Py.Return tt, g).
Proof.
  intros H; unfold make_move, bind, get, ret; cbn; rewrite H; reflexivity.
Qed.

Lemma make_move_legal (g : ChessGame.t) (m : Move) :
  move_in m (legal_moves (board g)) = true ->
  exists p, piece_at (board g) (from_square m) = Some p /\
            make_move m g = (Py.Return tt, moved_game g m p).
Proof.
  intros H. pose proof (legal_occupied _ _ H) as Hocc.
  destruct (piece_at (board g) (from_square m)) as [p|] eqn:Hp; [|contradiction].
  exists p; split; [reflexivity|].
  unfold make_move, bind, get, modify; cbn -[check_game_over]. rewrite H.
  destruct (normalized_squares (board g) m) as [-> ->]. rewrite Hp.
  cbn -[check_game_over]. rewrite check_game_over_checked. reflexivity.
Qed.

(** With python-chess's guarantee that a legal move starts on an occupied
    square, [make_move] never raises. *)
Lemma make_move_returns (g : ChessGame.t) (m : Move) :
  fst (make_move m g) = Py.Return tt.
Proof.
  destruct (move_in m (legal_moves (board g))) eqn:H.
  - destruct (make_move_legal g m H) as [p [_ ->]]; reflexivity.
  - rewrite make_move_illegal by assumption; reflexivity.
Qed.

Lemma make_move_player_color (g : ChessGame.t) (m : Move) :
  player_color (snd (make_move m g)) = player_color g.
Proof.
  destruct (move_in m (legal_moves (board g))) eqn:H.
  - destruct (make_move_legal g m H) as [p [_ ->]]. cbn [snd].
    unfold moved_game. destruct (checked_frame
      (set_board (push (board g) (normalized (board g) m))
         (set_animated_pieces (animated_pieces g ++ [animation_of g m p]) g)))
      as [_ [_ [-> _]]]. reflexivity.
  - rewrite make_move_illegal by assumption; reflexivity.
Qed.

Lemma make_moves_snoc (moves : list Move) (m : Move) (g : ChessGame.t) :
  make_moves (moves ++ [m]) g = make_move m (snd (make_moves moves g)).
Proof.
  revert g; induction moves as [|m0 rest IH]; intros g; cbn [make_moves app].
  - unfold bind, ret. cbn [snd].
    pose proof (make_move_returns g m) as Hr.
    destruct (make_move m g) as [[[]|e] g1]; cbn in Hr; [reflexivity|discriminate].
  - unfold bind.
    pose proof (make_move_returns g m0) as Hr.
    destruct (make_move m0 g) as [[[]|e] g1]; cbn in Hr; [|discriminate].
    cbn [snd]. apply IH.
Qed.

Lemma make_moves_player_color (moves : list Move) (g : ChessGame.t) :
  player_color (snd (make_moves moves g)) = player_color g.
Proof.
  revert g; induction moves as [|m0 rest IH]; intros g; cbn [make_moves].
  - reflexivity.
  - unfold bind.
    pose proof (make_move_returns g m0) as Hr.
    pose proof (make_move_player_color g m0) as Hc.
    destruct (make_move m0 g) as [[[]|e] g1]; cbn in Hr, Hc; [|discriminate].
    rewrite IH. exact Hc.
Qed.

End WithRules.
End GameFacts.

Import Chess Engine ChessGame Outcome.

Section MoveClaims.
Context {R : ChessRules}.

(** C1, as the code has it.  [make_move(M)] pushes [M] on the board -- the
    object [M] as it then is, its promotion overwritten by Queen when it
    moves a pawn onto its last rank -- if and only if [M] is in the board's
    legal moves beforehand.  A legal [M] also appends one animation and
    runs the game-over check.  When [M] is not legal the call is a silent
    no-op: it returns [None] as every call does, raises nothing, prints
    nothing and leaves the whole object (position, animation list,
    game-over flag, winner) as it was. *)
Theorem make_move_applies_iff_legal (g : ChessGame.t) (m : Move) :
  (move_in m (legal_moves (board g)) = true <->
   board (snd (make_move m g)) = push (board g) (normalized (board g) m)) /\
  (move_in m (legal_moves (board g)) = true ->
   exists p, piece_at (board g) (from_square m) = Some p /\
             make_move m g = (Py.Return tt, moved_game g m p) /\
             animated_pieces (moved_game g m p)
             = (animated_pieces g ++ [animation_of g m p])%list) /\
  (move_in m (legal_moves (board g)) = false ->
   make_move m g = (Py.Return tt, g) /\ ~ reports_failure (make_move m g) g).
Proof.
  split; [|split].
  - split.
    + intros H. destruct (GameFacts.make_move_legal g m H) as [p [_ ->]].
      cbn [snd]. unfold moved_game.
      match goal with
      | |- board (checked ?x) = _ =>
          destruct (GameFacts.checked_frame x) as [-> _]
      end. reflexivity.
    + intros H. destruct (move_in m (legal_moves (board g))) eqn:E; [reflexivity|].
      rewrite GameFacts.make_move_illegal in H by assumption. cbn [snd] in H.
      apply (f_equal turn) in H. rewrite push_turn in H.
      destruct (turn (board g)); discriminate.
  - intros H. destruct (GameFacts.make_move_legal g m H) as [p [Hp Hm]].
    exists p. split; [exact Hp|split; [exact Hm|]].
    unfold moved_game.
    match goal with
    | |- animated_pieces (checked ?x) = _ =>
        destruct (GameFacts.checked_frame x) as [_ [-> _]]
    end. reflexivity.
  - intros H. rewrite GameFacts.make_move_illegal by assumption.
    split; [reflexivity|]. unfold reports_failure; cbn.
    intros [F|F]; apply F; reflexivity.
Qed.

(** X1.  A legal pawn move onto the last rank leaves a Queen of the
    mover's side on the destination, whatever promotion piece it asked
    for. *)
Lemma make_move_promotes_to_queen (g : ChessGame.t) (m : Move) (c : Color) :
  move_in m (legal_moves (board g)) = true ->
  piece_at (board g) (from_square m) = Some (mkPiece PAWN c) ->
  square_rank (to_square m) = (if c then 7 else 0) ->
  piece_at (board (snd (make_move m g))) (to_square m)
  = Some (mkPiece QUEEN (turn (board g))).
Proof.
  intros Hl Hp Hr.
  destruct (GameFacts.make_move_legal g m Hl) as [p [_ ->]]. cbn [snd].
  unfold moved_game.
  match goal with
  | |- piece_at (board (checked ?x)) _ = _ =>
      destruct (GameFacts.checked_frame x) as [-> _]
  end. cbn [board set_board].
  assert (Hn : normalized (board g) m = set_promotion m (Some QUEEN)).
  { unfold normalized, pawn_reaches_last_rank. rewrite Hp.
    cbn [piece_type color PieceType_eqb andb].
    rewrite Hr. destruct c; reflexivity. }
  rewrite Hn.
  apply (push_promotion (board g) (set_promotion m (Some QUEEN)) QUEEN);
    cbn; [rewrite Hp|reflexivity|]; discriminate.
Qed.

(** X2.  A pawn move onto the last rank that names no promotion piece is
    not among python-chess's legal moves, so [make_move] drops it. *)
Lemma make_move_drops_bare_promotion (g : ChessGame.t) (m : Move) (c : Color) :
  piece_at (board g) (from_square m) = Some (mkPiece PAWN c) ->
  square_rank (to_square m) = (if c then 7 else 0) ->
  promotion m = None ->
  make_move m g = (Py.Return tt, g).
Proof.
  intros Hp Hr Hn. apply GameFacts.make_move_illegal.
  destruct (move_in m (legal_moves (board g))) eqn:E; [|reflexivity].
  exfalso. exact (legal_pawn_promotes _ _ _ E Hp Hr Hn).
Qed.

(** C3.  Whatever moves were made before, when the next move is legal and
    the position it leads to is checkmate, [make_move] of that move returns
    with the game-over flag set and the winner naming the side that just
    moved: "player" when that side is [player_color], "computer"
    otherwise. *)
Theorem checkmate_names_mover_as_winner
  (g : ChessGame.t) (moves : list Move) (m : Move) :
  move_in m (legal_moves (board (snd (make_moves moves g)))) = true ->
  is_checkmate
    (push (board (snd (make_moves moves g)))
          (normalized (board (snd (make_moves moves g))) m)) = true ->
  fst (make_moves (moves ++ [m]) g) = Py.Return tt /\
  game_over (snd (make_moves (moves ++ [m]) g)) = true /\
  winner (snd (make_moves (moves ++ [m]) g))
  = Py.Str (if Bool.eqb (turn (board (snd (make_moves moves g)))) (player_color g)
            then "player" else "computer").
Proof.
  intros Hl Hm. rewrite GameFacts.make_moves_snoc.
  rewrite <- (GameFacts.make_moves_player_color moves g).
  set (g1 := snd (make_moves moves g)) in *.
  destruct (GameFacts.make_move_legal g1 m Hl) as [p [_ ->]]. cbn [fst snd].
  unfold moved_game, checked. cbn [board set_board set_animated_pieces].
  rewrite Hm. cbn. rewrite push_turn.
  split; [reflexivity|split; [reflexivity|]].
  destruct (turn (board g1)), (player_color g1); reflexivity.
Qed.

End MoveClaims.

(** C1, counterexample to the claim as stated: in a new game e2-e5 is not
    legal, and [make_move] of it returns [None] with nothing raised and
    nothing printed; the caller is told of no failure. *)
Lemma illegal_move_is_not_reported :
  move_in (mkMove Scenario.E2 Scenario.E5 None)
          (legal_moves (board Scenario.vs_friend)) = false /\
  make_move (mkMove Scenario.E2 Scenario.E5 None) Scenario.vs_friend
  = (Py.Return tt, Scenario.vs_friend) /\
  ~ reports_failure
      (make_move (mkMove Scenario.E2 Scenario.E5 None) Scenario.vs_friend)
      Scenario.vs_friend.
Proof.
  assert (H : move_in (mkMove Scenario.E2 Scenario.E5 None)
                (legal_moves (board Scenario.vs_friend)) = false)
    by (vm_compute; reflexivity).
  split; [exact H|].
  rewrite (GameFacts.make_move_illegal _ _ H).
  split; [reflexivity|]. unfold reports_failure; cbn.
  intros [F|F]; apply F; reflexivity.
Qed.

(** C3 on Fool's mate: after 1. f3 e5 2. g4 Qh4# the game is over and,
    Black having mated the White player, the winner is "computer". *)
Lemma checkmate_names_mover_as_winner_witness :
  game_over (snd (make_moves (Scenario.fools_mate_opening
                              ++ [Scenario.fools_mate_move])
                             Scenario.vs_friend)) = true /\
  winner (snd (make_moves (Scenario.fools_mate_opening
                           ++ [Scenario.fools_mate_move])
                          Scenario.vs_friend)) = Py.Str "computer".
Proof.
  pose proof (checkmate_names_mover_as_winner (R := MiniChess.rules)
                Scenario.vs_friend Scenario.fools_mate_opening
                Scenario.fools_mate_move) as H.
  destruct H as [_ [Hg Hw]]; [vm_compute; reflexivity ..|].
  split; [exact Hg|]. rewrite Hw. vm_compute. reflexivity.
Defined.

(** C2, the code at the failing input.  On the position of the
    repository's promotion test (a lone white pawn on b7, White to move)
    the move b7-b8 without a promotion piece is not among the legal moves,
    so [make_move] leaves the object untouched and b8 empty; the same
    happens to the move that [handle_event] builds from a click on b7 and a
    click on b8, since the membership test comes before the promotion is
    filled in.  Only a move that already names a piece goes through, and
    then ends as a Queen. *)
Theorem bare_promotion_move_is_dropped :
  move_in (mkMove Scenario.B7 Scenario.B8 None)
          (legal_moves (board Scenario.pawn_game)) = false /\
  make_move (mkMove Scenario.B7 Scenario.B8 None) Scenario.pawn_game
  = (Py.Return tt, Scenario.pawn_game) /\
  piece_at (board (snd (make_move (mkMove Scenario.B7 Scenario.B8 None)
                                  Scenario.pawn_game))) Scenario.B8 = None /\
  piece_at (board Scenario.promotion_clicks) Scenario.B8 = None /\
  piece_at (board Scenario.promotion_clicks) Scenario.B7
  = Some (mkPiece PAWN WHITE) /\
  selected_square Scenario.promotion_clicks = None /\
  piece_at (board (snd (make_move (mkMove Scenario.B7 Scenario.B8 (Some KNIGHT))
                                  Scenario.pawn_game))) Scenario.B8
  = Some (mkPiece QUEEN WHITE).
Proof. repeat split; vm_compute; reflexivity. Qed.

Section ResignFacts.
Context {R : ChessRules}.

(** [resign] sets the flag and stores the colour opposite to the side to
    move; of the board it reads [turn] and nothing else. *)
Lemma resign_result (g : ChessGame.t) :
  resign g = (Py.Return tt,
              set_winner (Py.Bool (negb (turn (board g)))) (set_game_over true g)).
Proof.
  unfold resign, bind, modify, get; cbn.
  destruct (turn (board g)); reflexivity.
Qed.

(** X3.  What [resign] stores equals neither string that
    [draw_game_over] and the other game-over paths use. *)
Lemma resign_winner_is_no_outcome (g : ChessGame.t) (s : string) :
  Py.eqb (winner (snd (resign g))) (Py.Str s) = false.
Proof. rewrite resign_result. reflexivity. Qed.

End ResignFacts.

(** C4, the code at the failing input.  Resigning a new vs-computer game
    (White, the human, to move) sets the game-over flag and stores the
    colour [chess.BLACK] as winner, not the outcome "computer" that a
    checkmate by Black stores; [draw_game_over] then shows the plain
    "Game Over" text instead of "Computer Wins!". *)
Theorem resign_records_colour_not_outcome :
  fst (resign Scenario.vs_computer) = Py.Return tt /\
  game_over (snd (resign Scenario.vs_computer)) = true /\
  winner (snd (resign Scenario.vs_computer)) = Py.Bool BLACK /\
  winner (snd (resign Scenario.vs_computer)) <> Py.Str "computer" /\
  game_over_message (snd (resign Scenario.vs_computer))
  = ("Game Over", EmptyString) /\
  game_over_message
    (snd (make_moves (Scenario.fools_mate_opening ++ [Scenario.fools_mate_move])
                     Scenario.vs_computer))
  = ("Computer Wins!", "Better luck next time!").
Proof.
  repeat split; try (vm_compute; reflexivity).
  vm_compute. discriminate.
Qed.

(** ** Invariants of the running program *)

Module Invariants.

Section WithRules.
Context {R : ChessRules}.

(** No method moves [player_color] away from White. *)
Lemma step_player_color (g g' : ChessGame.t) :
  step g g' -> player_color g' = WHITE \/ player_color g' = player_color g.
Proof.
  intros H; destruct H.
  - right; reflexivity.
  - run_methods. unfold stockfish_paths. split_cases; auto.
  - left; reflexivity.
  - left; reflexivity.
  - run_methods. split_cases; auto.
  - right; reflexivity.
  - run_methods. split_cases; auto.
  - run_methods. split_cases; auto.
Qed.

Lemma reachable_player_color (g : ChessGame.t) :
  reachable g -> player_color g = WHITE.
Proof.
  induction 1 as [display_size popen_uci|g g' _ IH Hstep].
  - destruct display_size; reflexivity.
  - destruct (step_player_color g g' Hstep) as [H|H]; congruence.
Qed.

Lemma handle_event_frame (e : Event) (g : ChessGame.t) :
  state (snd (handle_event e g)) = state g /\
  two_player_mode (snd (handle_event e g)) = two_player_mode g /\
  computer_move_scheduled (snd (handle_event e g)) = computer_move_scheduled g /\
  (game_over g = true -> snd (handle_event e g) = g).
Proof.
  run_methods; split_cases; repeat split; try reflexivity; try congruence.
Qed.

(** In a vs-computer game a click does nothing while it is not the
    human's turn. *)
Lemma handle_event_not_turn (e : Event) (g : ChessGame.t) :
  two_player_mode g = Some false -> turn (board g) <> player_color g ->
  handle_event e g = (Py.Return tt, g).
Proof.
  intros Ht Hn. apply eqb_false_iff in Hn.
  run_methods. destruct e as [button [x y]| | |]; cbn; try reflexivity.
  destruct (button =? 1); cbn; [|reflexivity].
  destruct (game_over g); cbn; [reflexivity|].
  rewrite Ht; cbn. rewrite Hn; reflexivity.
Qed.

Lemma run_update_frame (t : Z) (play : play_t Board) (g : ChessGame.t) :
  state (snd (run_update t play g)) = state g /\
  two_player_mode (snd (run_update t play g)) = two_player_mode g /\
  (game_over g = true -> game_over (snd (run_update t play g)) = true).
Proof.
  run_methods; split_cases; repeat split; try reflexivity; try congruence; auto.
Qed.

(** The update pass while a request is in flight: the forfeit once more
    than 1000 ms have passed, nothing before. *)
Lemma run_update_waiting (t : Z) (play : play_t Board) (g : ChessGame.t) :
  state g = "PLAYING" -> game_over g = false ->
  two_player_mode g = Some false -> turn (board g) <> player_color g ->
  animated_pieces g = [] -> computer_move_scheduled g = true ->
  run_update t play g =
  (Py.Return tt, if t - computer_thinking_start g >? 1000 then timed_out g else g).
Proof.
  intros Hs Hg Ht Hn Ha Hc. apply eqb_false_iff in Hn.
  destruct g; cbn in Hs, Hg, Ht, Hn, Ha, Hc; subst.
  run_methods; unfold timed_out; cbn -[Z.sub Z.gtb]. rewrite Hn; cbn -[Z.sub Z.gtb].
  destruct (_ >? 1000); reflexivity.
Qed.

(** The update pass that puts a request in flight leaves it in flight only
    on the computer's turn with no animation pending. *)
Lemma run_update_schedules (t : Z) (play : play_t Board) (g : ChessGame.t) :
  computer_move_scheduled g = false ->
  game_over (snd (run_update t play g)) = false ->
  computer_move_scheduled (snd (run_update t play g)) = true ->
  turn (board (snd (run_update t play g)))
  <> player_color (snd (run_update t play g)) /\
  animated_pieces (snd (run_update t play g)) = [].
Proof.
  intros Hc. run_methods. split_cases; intros; try congruence;
    try match goal with
    | H : _ && _ = true |- _ =>
        rewrite !andb_true_iff, ?negb_true_iff, ?eqb_false_iff in H;
        destruct H as [[_ H] H'];
        first [discriminate H' | split; [exact H|reflexivity]]
    end.
Qed.

Lemma step_inflight (g g' : ChessGame.t) :
  step g g' -> inflight_inv g -> inflight_inv g'.
Proof.
  intros H Hinv; destruct H.
  - unfold inflight_inv; cbn; intros; discriminate.
  - run_methods; unfold stockfish_paths; split_cases;
      unfold inflight_inv in *; cbn in *; intros; try discriminate; auto.
  - unfold inflight_inv; cbn; intros; discriminate.
  - unfold inflight_inv; cbn; intros; discriminate.
  - run_methods; split_cases;
      unfold inflight_inv in *; cbn in *; intros; try discriminate;
      try congruence;
      match goal with
      | H : two_player_mode g = Some ?b, H' : two_player_mode g = Some false |- _ =>
          rewrite H in H'; injection H' as ->; discriminate
      end.
  - unfold inflight_inv; cbn; intros; discriminate.
  - destruct (handle_event_frame event g) as [Hs [Ht [Hc Hg]]].
    intros Hs' Ht' Hg' Hc'. rewrite Hs in Hs'; rewrite Ht in Ht'; rewrite Hc in Hc'.
    destruct (game_over g) eqn:Hgo.
    + rewrite (Hg eq_refl) in Hg'; congruence.
    + destruct (Hinv Hs' Ht' Hgo Hc') as [Hn Ha].
      rewrite (handle_event_not_turn event g Ht' Hn); cbn; auto.
  - destruct (run_update_frame current_time play g) as [Hs [Ht Hg]].
    intros Hs' Ht' Hg' Hc'.
    destruct (computer_move_scheduled g) eqn:Hsched.
    + rewrite Hs in Hs'; rewrite Ht in Ht'.
      destruct (game_over g) eqn:Hgo; [rewrite (Hg eq_refl) in Hg'; discriminate|].
      destruct (Hinv Hs' Ht' Hgo Hsched) as [Hn Ha].
      rewrite (run_update_waiting current_time play g Hs' Hgo Ht' Hn Ha Hsched) in *.
      cbn [snd] in *.
      destruct (current_time - computer_thinking_start g >? 1000);
        [discriminate Hg'|auto].
    + apply run_update_schedules; assumption.
Qed.

Lemma reachable_inflight (g : ChessGame.t) : reachable g -> inflight_inv g.
Proof.
  induction 1 as [display_size popen_uci|g g' _ IH Hstep].
  - unfold inflight_inv, init. destruct display_size; cbn; intros; discriminate.
  - eapply step_inflight; eassumption.
Qed.

Lemma reachable_frames (n : nat) (t : Z) (play : play_t Board) (g : ChessGame.t) :
  reachable g -> reachable (Nat.iter n (fun g => snd (run_update t play g)) g).
Proof.
  intros H; induction n as [|n IH].
  - exact H.
  - rewrite Nat.iter_succ. eapply reachable_step; [exact IH|constructor].
Qed.

End WithRules.
End Invariants.

Section ControllerClaims.
Context {R : ChessRules}.

(** C5.  In every state the program can reach that is PLAYING (state
    "PLAYING", game not over) in vs-computer mode with a computer-move
    request in flight, an update pass run more than 1000 ms after the
    request started sets the game-over flag, records "player" as winner,
    clears the in-flight flag and its start time, and keeps the engine
    handle. *)
Theorem timeout_forfeits_to_player (g : ChessGame.t) (t : Z) (play : play_t Board) :
  reachable g ->
  state g = "PLAYING" -> game_over g = false ->
  two_player_mode g = Some false ->
  computer_move_scheduled g = true ->
  t - computer_thinking_start g > 1000 ->
  run_update t play g = (Py.Return tt, timed_out g) /\
  game_over (snd (run_update t play g)) = true /\
  winner (snd (run_update t play g)) = Py.Str "player" /\
  computer_move_scheduled (snd (run_update t play g)) = false /\
  computer_thinking_start (snd (run_update t play g)) = 0 /\
  engine (snd (run_update t play g)) = engine g.
Proof.
  intros Hr Hs Hg Ht Hc Hlate.
  destruct (Invariants.reachable_inflight g Hr Hs Ht Hg Hc) as [Hn Ha].
  rewrite (Invariants.run_update_waiting t play g Hs Hg Ht Hn Ha Hc).
  assert ((t - computer_thinking_start g >? 1000) = true) as ->
    by (apply Z.gtb_lt; lia).
  repeat split.
Qed.

(** C6, as the code has it.  When [engine.play] raises, whatever the
    exception, [make_computer_move] returns with the game-over flag set and
    winner "player".  The engine handle is set to [None] only for
    [EngineTerminatedError], and then the next [start_vs_computer] launches
    an engine again; after any other exception the handle is kept, and the
    next [start_vs_computer] plays on with it. *)
Theorem computer_move_failure_forfeits
  (g : ChessGame.t) (eng : SimpleEngine) (play : play_t Board) (e : Py.exn) :
  engine g = Some eng ->
  play eng (board g) = Py.Raise e ->
  fst (make_computer_move play g) = Py.Return tt /\
  game_over (snd (make_computer_move play g)) = true /\
  winner (snd (make_computer_move play g)) = Py.Str "player" /\
  engine (snd (make_computer_move play g))
  = match e with Py.EngineTerminatedError _ => None | _ => Some eng end /\
  (forall (popen_uci : popen_uci_t) (eng' : SimpleEngine),
     popen_uci "/opt/homebrew/bin/stockfish" = Py.Return eng' ->
     engine (snd (start_vs_computer popen_uci (snd (make_computer_move play g))))
     = match e with Py.EngineTerminatedError _ => Some eng' | _ => Some eng end).
Proof.
  intros He Hp.
  unfold make_computer_move, bind, get, try_except, call. cbn -[make_move].
  rewrite He, Hp.
  destruct e; cbn; rewrite ?He; repeat split;
    intros popen_uci eng' Hl; run_methods; unfold stockfish_paths; cbn;
    rewrite ?He, ?Hl; cbn; rewrite ?He; reflexivity.
Qed.

(** C7.  With no engine handle and every candidate path failing to launch,
    [start_vs_computer] returns without raising, having printed the
    failures, "Could not initialize chess engine..." and last "Chess engine
    not available..."; nothing else of the object changes: the state stays
    what it was (MENU stays MENU), board, selection, animations, game-over
    flag and winner are not reset, and the handle stays absent. *)
Theorem start_vs_computer_refused_without_engine
  (g : ChessGame.t) (popen_uci : popen_uci_t) :
  engine g = None ->
  (forall path, In path stockfish_paths -> exists e, popen_uci path = Py.Raise e) ->
  (exists lines,
     start_vs_computer popen_uci g
     = (Py.Return tt, set_stdout (stdout g ++ lines) g) /\
     In "Could not initialize chess engine. Please make sure Stockfish is installed."
        lines /\
     last lines EmptyString
     = "Chess engine not available. Please install Stockfish to play against computer.") /\
  (state g = "MENU" -> state (snd (start_vs_computer popen_uci g)) = "MENU") /\
  board (snd (start_vs_computer popen_uci g)) = board g /\
  selected_square (snd (start_vs_computer popen_uci g)) = selected_square g /\
  valid_moves (snd (start_vs_computer popen_uci g)) = valid_moves g /\
  animated_pieces (snd (start_vs_computer popen_uci g)) = animated_pieces g /\
  game_over (snd (start_vs_computer popen_uci g)) = game_over g /\
  winner (snd (start_vs_computer popen_uci g)) = winner g /\
  engine (snd (start_vs_computer popen_uci g)) = None.
Proof.
  intros He Hfail.
  destruct (Hfail "/opt/homebrew/bin/stockfish") as [e1 H1]; [cbn; auto|].
  destruct (Hfail "/usr/local/bin/stockfish") as [e2 H2]; [cbn; auto|].
  destruct (Hfail "stockfish") as [e3 H3]; [cbn; auto|].
  assert (Hrun : start_vs_computer popen_uci g
                 = (Py.Return tt,
                    set_stdout
                      (stdout g ++
                       [("Failed to initialize engine at /opt/homebrew/bin/stockfish: "
                         ++ Py.str e1)%string;
                        ("Failed to initialize engine at /usr/local/bin/stockfish: "
                         ++ Py.str e2)%string;
                        ("Failed to initialize engine at stockfish: "
                         ++ Py.str e3)%string;
                        "Could not initialize chess engine. Please make sure Stockfish is installed.";
                        "Chess engine not available. Please install Stockfish to play against computer."])
                      g)).
  { run_methods. unfold stockfish_paths. cbn. rewrite He. cbn.
    rewrite H1. cbn. rewrite H2. cbn. rewrite H3. cbn. rewrite He.
    unfold set_stdout; cbn. rewrite <- !app_assoc. reflexivity. }
  rewrite Hrun. cbn [snd].
  split; [eexists; split; [reflexivity|split; [cbn; auto 6|reflexivity]]|].
  repeat split; auto.
Qed.

(** C10.  In every state the program can reach, from the new object
    through any sequence of method calls, [player_color] is White, and it
    still is after one more call.  So in vs-computer mode a click while
    Black is to move changes nothing, and while White is to move the update
    pass never consults the engine: the human plays White only, the engine
    Black only. *)
Theorem player_color_always_white (g : ChessGame.t) :
  reachable g ->
  player_color g = WHITE /\
  (forall g', step g g' -> player_color g' = WHITE) /\
  (two_player_mode g = Some false -> turn (board g) = BLACK ->
   forall e, handle_event e g = (Py.Return tt, g)) /\
  (turn (board g) = WHITE ->
   forall t play1 play2, run_update t play1 g = run_update t play2 g).
Proof.
  intros Hr. pose proof (Invariants.reachable_player_color g Hr) as Hw.
  split; [exact Hw|split; [|split]].
  - intros g' Hstep. apply Invariants.reachable_player_color.
    eapply reachable_step; eassumption.
  - intros Ht Hb e. apply Invariants.handle_event_not_turn; [exact Ht|].
    rewrite Hb, Hw. discriminate.
  - intros Ht t play1 play2.
    destruct g; cbn in Hw, Ht; subst.
    run_methods. split_cases; try reflexivity;
      match goal with
      | H : negb ?b && _ && _ = true |- _ =>
          rewrite Ht in H; destruct b; discriminate H
      end.
Qed.

End ControllerClaims.

(** ** The claims at concrete games *)

Lemma reachable_vs_computer : reachable Scenario.vs_computer.
Proof.
  apply (reachable_step (R := MiniChess.rules) Scenario.fresh).
  - exact (reachable_init (R := MiniChess.rules) (1200, 800) Scenario.popen_ok).
  - exact (step_start_vs_computer (R := MiniChess.rules) Scenario.fresh
             Scenario.popen_ok).
Qed.

(** The game with a request in flight is one the program reaches: new
    object, "Play vs Computer", two clicks, thirteen update passes. *)
Lemma reachable_waiting : reachable Scenario.waiting.
Proof.
  unfold Scenario.waiting, Scenario.frame.
  apply (Invariants.reachable_frames (R := MiniChess.rules)).
  unfold Scenario.after_e4.
  eapply reachable_step; [|exact (step_handle_event _ (Scenario.click Scenario.E4))].
  eapply reachable_step; [|exact (step_handle_event _ (Scenario.click Scenario.E2))].
  exact reachable_vs_computer.
Qed.

(** C5 at the game whose request started at time 5000, updated at time
    6001. *)
Lemma timeout_forfeits_to_player_witness :
  reachable Scenario.waiting /\
  computer_move_scheduled Scenario.waiting = true /\
  run_update (R := MiniChess.rules) 6001 Scenario.play_no_move Scenario.waiting
  = (Py.Return tt, timed_out Scenario.waiting).
Proof.
  split; [exact reachable_waiting|split; [vm_compute; reflexivity|]].
  apply (timeout_forfeits_to_player (R := MiniChess.rules) Scenario.waiting 6001
           Scenario.play_no_move reachable_waiting);
    vm_compute; reflexivity.
Defined.

(** C6, counterexample to the claim as stated: the engine raises an
    exception other than [EngineTerminatedError]; the game is forfeited to
    the player, but the engine handle is still there afterwards. *)
Lemma engine_error_keeps_engine_handle :
  engine Scenario.vs_computer = Some (mkEngine "/opt/homebrew/bin/stockfish") /\
  Scenario.play_error (mkEngine "/opt/homebrew/bin/stockfish")
                      (board Scenario.vs_computer)
  = Py.Raise (Py.Exception "engine sent invalid data") /\
  game_over (snd (make_computer_move (R := MiniChess.rules) Scenario.play_error
                                     Scenario.vs_computer)) = true /\
  winner (snd (make_computer_move (R := MiniChess.rules) Scenario.play_error
                                  Scenario.vs_computer)) = Py.Str "player" /\
  engine (snd (make_computer_move (R := MiniChess.rules) Scenario.play_error
                                  Scenario.vs_computer))
  = Some (mkEngine "/opt/homebrew/bin/stockfish") /\
  engine (snd (make_computer_move (R := MiniChess.rules) Scenario.play_error
                                  Scenario.vs_computer)) <> None.
Proof. repeat split; try (vm_compute; reflexivity). vm_compute; discriminate. Qed.

(** C6 at a new vs-computer game whose engine process has died. *)
Lemma computer_move_failure_forfeits_witness :
  game_over (snd (make_computer_move (R := MiniChess.rules) Scenario.play_terminated
                                     Scenario.vs_computer)) = true /\
  winner (snd (make_computer_move (R := MiniChess.rules) Scenario.play_terminated
                                  Scenario.vs_computer)) = Py.Str "player" /\
  engine (snd (make_computer_move (R := MiniChess.rules) Scenario.play_terminated
                                  Scenario.vs_computer)) = None.
Proof.
  destruct (computer_move_failure_forfeits (R := MiniChess.rules)
              Scenario.vs_computer (mkEngine "/opt/homebrew/bin/stockfish")
              Scenario.play_terminated
              (Py.EngineTerminatedError "engine process died"))
    as [_ [Hg [Hw [He _]]]]; [vm_compute; reflexivity ..|].
  split; [exact Hg|split; [exact Hw|exact He]].
Defined.

(** C7 at a new object on a machine without Stockfish. *)
Lemma start_vs_computer_refused_without_engine_witness :
  fst (start_vs_computer (R := MiniChess.rules) Scenario.popen_missing
                         Scenario.fresh_without_engine) = Py.Return tt /\
  state (snd (start_vs_computer (R := MiniChess.rules) Scenario.popen_missing
                                Scenario.fresh_without_engine)) = "MENU" /\
  engine (snd (start_vs_computer (R := MiniChess.rules) Scenario.popen_missing
                                 Scenario.fresh_without_engine)) = None.
Proof.
  destruct (start_vs_computer_refused_without_engine (R := MiniChess.rules)
              Scenario.fresh_without_engine Scenario.popen_missing)
    as [[lines [Hrun _]] [Hs [_ [_ [_ [_ [_ [_ He]]]]]]]].
  - vm_compute; reflexivity.
  - intros path _. eexists. reflexivity.
  - split; [rewrite Hrun; reflexivity|].
    split; [apply Hs; vm_compute; reflexivity|exact He].
Defined.

(** C10 at the game with a request in flight. *)
Lemma player_color_always_white_witness :
  reachable Scenario.waiting /\ player_color Scenario.waiting = WHITE.
Proof.
  split; [exact reachable_waiting|].
  exact (proj1 (player_color_always_white (R := MiniChess.rules)
                  Scenario.waiting reachable_waiting)).
Defined.

(** X1 with a knight requested on b8 in the promotion test's position:
    the pawn arrives as a White Queen. *)
Lemma make_move_promotes_to_queen_witness :
  piece_at (board (snd (make_move (mkMove Scenario.B7 Scenario.B8 (Some KNIGHT))
                                  Scenario.pawn_game))) Scenario.B8
  = Some (mkPiece QUEEN WHITE).
Proof.
  apply (make_move_promotes_to_queen (R := MiniChess.rules) Scenario.pawn_game
           (mkMove Scenario.B7 Scenario.B8 (Some KNIGHT)) WHITE);
    vm_compute; reflexivity.
Defined.

(** X2 with no piece requested on b8 in the same position: nothing
    happens. *)
Lemma make_move_drops_bare_promotion_witness :
  make_move (mkMove Scenario.B7 Scenario.B8 None) Scenario.pawn_game
  = (Py.Return tt, Scenario.pawn_game).
Proof.
  apply (make_move_drops_bare_promotion (R := MiniChess.rules) Scenario.pawn_game
           (mkMove Scenario.B7 Scenario.B8 None) WHITE);
    vm_compute; reflexivity.
Defined.

(** * More of the program: selection, positions and the main loop *)

Import Play.

(** Unfolds the methods but keeps [make_move] as one call. *)
Ltac run_callers :=
  unfold ChessGame.run_update, ChessGame.computer_turn,
    ChessGame.update_animations, ChessGame.make_computer_move,
    ChessGame.handle_event, ChessGame.restart_game, ChessGame.start_game,
    ChessGame.start_vs_human, ChessGame.start_vs_computer,
    ChessGame.init_engine, ChessGame.show_menu, ChessGame.resign,
    ChessGame.get_two_player_mode, ChessGame.print, ChessGame.try_except,
    ChessGame.call, ChessGame.modify, ChessGame.get, ChessGame.raise,
    ChessGame.bind, ChessGame.ret in *.

Ltac split_callers :=
  cbn -[String.eqb Z.sub Z.gtb Z.div ChessGame.make_move] in *;
  repeat (split_case; cbn -[String.eqb Z.sub Z.gtb Z.div ChessGame.make_move] in *).

Section FrameFacts.
Context {R : ChessRules}.
Lemma make_move_frame (m : Move) (g : ChessGame.t) :
  selected_square (snd (make_move m g)) = selected_square g /\
  valid_moves (snd (make_move m g)) = valid_moves g /\
  player_color (snd (make_move m g)) = player_color g /\
  state (snd (make_move m g)) = state g /\
  two_player_mode (snd (make_move m g)) = two_player_mode g /\
  computer_move_scheduled (snd (make_move m g)) = computer_move_scheduled g /\
  engine (snd (make_move m g)) = engine g /\
  SQUARE_SIZE (snd (make_move m g)) = SQUARE_SIZE g /\
  BOARD_OFFSET (snd (make_move m g)) = BOARD_OFFSET g.
Proof.
  destruct (move_in m (legal_moves (board g))) eqn:H.
  - destruct (GameFacts.make_move_legal g m H) as [p [_ ->]]. cbn [snd].
    unfold moved_game, checked. cbn.
    destruct (is_checkmate _ || is_stalemate _ || is_insufficient_material _);
      repeat split.
  - rewrite GameFacts.make_move_illegal by assumption. repeat split.
Qed.
End FrameFacts.

(** Brings in what is known of the object after each [make_move]. *)
Ltac use_make_move :=
  repeat match goal with
         | H : ChessGame.make_move ?m ?g0 = (?o, ?g1) |- _ =>
             let F := fresh "F" in
             let B := fresh "B" in
             let Rt := fresh "Rt" in
             pose proof (make_move_frame m g0) as F;
             pose proof (GameFacts.make_move_returns g0 m) as Rt;
             rewrite H in F, Rt; cbn in F, Rt;
             destruct F as (? & ? & ? & ? & ? & ? & ? & ? & ?);
             try discriminate Rt;
             clear H
         end.

Section InvariantFacts.
Context {R : ChessRules}.

(** How the board can differ after [make_move]. *)
Lemma make_move_board (m : Move) (g : ChessGame.t) :
  board (snd (make_move m g))
  = if move_in m (legal_moves (board g))
    then push (board g) (normalized (board g) m) else board g.
Proof.
  destruct (move_in m (legal_moves (board g))) eqn:H.
  - destruct (GameFacts.make_move_legal g m H) as [p [_ ->]]. cbn [snd].
    unfold moved_game.
    match goal with
    | |- board (checked ?x) = _ => destruct (GameFacts.checked_frame x) as [-> _]
    end. reflexivity.
  - rewrite GameFacts.make_move_illegal by assumption. reflexivity.
Qed.

(** The update pass leaves the selection alone, and moves a piece only in
    a vs-computer game on the computer's turn. *)
Lemma run_update_selection (t : Z) (play : play_t Board) (g : ChessGame.t) :
  selected_square (snd (run_update t play g)) = selected_square g /\
  valid_moves (snd (run_update t play g)) = valid_moves g /\
  player_color (snd (run_update t play g)) = player_color g /\
  two_player_mode (snd (run_update t play g)) = two_player_mode g /\
  (board (snd (run_update t play g)) = board g \/
   two_player_mode g = Some false /\ turn (board g) <> player_color g).
Proof.
  run_callers. split_callers; use_make_move; repeat split; auto; try congruence.
  all: right;
    match goal with
    | H : negb ?b && negb (Bool.eqb _ _) && _ = true |- _ =>
        rewrite !andb_true_iff, !negb_true_iff, eqb_false_iff in H;
        destruct H as [[-> H] _]; split; [reflexivity|exact H]
    end.
Qed.

Lemma make_move_board_step (m : Move) (g : ChessGame.t) :
  board_step (board g) (board (snd (make_move m g))).
Proof.
  rewrite make_move_board. destruct (move_in m (legal_moves (board g))) eqn:H.
  - right; right; exists m; split; [exact H|reflexivity].
  - left; reflexivity.
Qed.

Lemma handle_event_outcome (e : Event) (g : ChessGame.t) :
  click_outcome g (handle_event e g).
Proof.
  run_callers. split_callers; try (constructor; fail).
  all: try match goal with
           | H : make_move ?m ?g0 = (Py.Raise _, _) |- _ =>
               pose proof (GameFacts.make_move_returns g0 m) as Rt;
               rewrite H in Rt; discriminate Rt
           | H : make_move ?m ?g0 = (_, ?g1) |- _ =>
               replace g1 with (snd (make_move m g0)) by (rewrite H; reflexivity);
               eapply click_moves; eassumption
           end.
  all: first
    [ apply click_raises; left; split; assumption
    | apply click_raises; right; left; apply Z.eqb_eq; assumption
    | apply click_raises; right; right;
      match goal with
      | Hs : selected_square _ = Some ?s, H : move_in ?m (valid_moves _) = true |- _ =>
          exists s, m
      end; repeat split; assumption
    | eapply click_deselects; eassumption
    | eapply click_selects; try eassumption;
      [ apply eqb_prop; assumption
      | let Hm := fresh in
        intros Hm;
        match goal with
        | Ho : two_player_mode _ = Some ?b, Hb : ?b || _ = true |- _ =>
            rewrite Hm in Ho; injection Ho as <-; apply eqb_prop; exact Hb
        end ] ].
Qed.

Lemma step_selection (g g' : ChessGame.t) :
  step g g' -> selection_inv g -> selection_inv g'.
Proof.
  intros H Hinv; destruct H.
  - reflexivity.
  - run_methods; unfold stockfish_paths; split_cases;
      unfold selection_inv in *; cbn in *; auto.
  - reflexivity.
  - reflexivity.
  - run_methods; split_cases; unfold selection_inv in *; cbn in *; auto.
  - exact Hinv.
  - destruct (handle_event_outcome event g) as [|e _|sq p Hs Hp Hc Hm|sel Hs|sel m Hs];
      cbn [snd]; try exact Hinv; try reflexivity.
    unfold selection_inv; cbn. split; [reflexivity|split; [|exact Hm]].
    exists p; split; assumption.
  - destruct (run_update_selection current_time play g) as [Hs [Hv [Hc [Hm Hb]]]].
    unfold selection_inv in *. rewrite Hs, Hv, Hc, Hm.
    destruct (selected_square g) as [sq|]; [|exact Hinv].
    destruct Hinv as [Hv' [Hp Ht]].
    destruct Hb as [Hb|[Hb1 Hb2]]; [|elim Hb2; auto].
    rewrite Hb. auto.
Qed.

Lemma reachable_selection (g : ChessGame.t) : reachable g -> selection_inv g.
Proof.
  induction 1 as [display_size popen_uci|g g' _ IH Hstep].
  - destruct display_size; reflexivity.
  - eapply step_selection; eassumption.
Qed.

(** ** The mode is set before it is read *)

Lemma step_mode (g g' : ChessGame.t) :
  step g g' ->
  (two_player_mode g <> None -> two_player_mode g' <> None) /\
  (mode_inv g -> mode_inv g') /\
  SQUARE_SIZE g' = SQUARE_SIZE g /\ BOARD_OFFSET g' = BOARD_OFFSET g.
Proof.
  intros H; destruct H; unfold mode_inv.
  - repeat split; auto; cbn; discriminate.
  - run_methods; unfold stockfish_paths; split_cases; repeat split; auto;
      cbn; discriminate.
  - repeat split; auto; cbn; discriminate.
  - repeat split; auto; cbn; discriminate.
  - run_methods; split_cases; repeat split; auto; cbn; congruence.
  - repeat split; auto.
  - destruct (handle_event_outcome event g) as [|e _|sq p Hs Hp Hc Hm|sel Hs|sel m Hs];
      cbn [snd]; try (repeat split; auto; fail).
    destruct (make_move_frame m g) as (_ & _ & _ & F1 & F2 & _ & _ & F3 & F4).
    cbn -[make_move]. rewrite F1, F2, F3, F4. repeat split; auto.
  - run_callers; split_callers; use_make_move; repeat split; auto; cbn; try congruence.
Qed.

Lemma reachable_mode (g : ChessGame.t) : reachable g -> mode_inv g.
Proof.
  induction 1 as [display_size popen_uci|g g' _ IH Hstep].
  - destruct display_size; unfold mode_inv; cbn; discriminate.
  - apply (step_mode g g' Hstep); exact IH.
Qed.

(** ** Positions come from legal moves *)

Lemma board_step_played (b b' : Board) : board_step b b' -> played b -> played b'.
Proof.
  intros [->|[->|[m [Hl ->]]]] H; [exact H|constructor|constructor; assumption].
Qed.

Lemma run_update_board (t : Z) (play : play_t Board) (g : ChessGame.t) :
  board_step (board g) (board (snd (run_update t play g))).
Proof.
  run_callers; split_callers; try (left; reflexivity);
    match goal with
    | H : make_move ?m ?g0 = (_, ?g1) |- _ =>
        pose proof (make_move_board_step m g0) as B; rewrite H in B; exact B
    end.
Qed.

Lemma step_board (g g' : ChessGame.t) :
  step g g' -> board_step (board g) (board g').
Proof.
  intros H; destruct H.
  - right; left; reflexivity.
  - run_methods; unfold stockfish_paths; split_cases;
      first [left; reflexivity|right; left; reflexivity].
  - right; left; reflexivity.
  - right; left; reflexivity.
  - run_methods; split_cases; right; left; reflexivity.
  - left; reflexivity.
  - destruct (handle_event_outcome event g) as [|e _|sq p Hs Hp Hc Hm|sel Hs|sel m Hs];
      cbn [snd]; try (left; reflexivity).
    apply (make_move_board_step m g).
  - apply run_update_board.
Qed.

End InvariantFacts.

Lemma square_file_mod (sq : Square) : square_file sq = sq mod 8.
Proof. unfold square_file. exact (Z.land_ones sq 3 ltac:(lia)). Qed.

Lemma square_rank_div (sq : Square) : square_rank sq = sq / 8.
Proof. unfold square_rank. exact (Z.shiftr_div_pow2 sq 3 ltac:(lia)). Qed.

Lemma square_file_rank (sq : Square) :
  square (square_file sq) (square_rank sq) = sq.
Proof.
  unfold square. rewrite square_file_mod, square_rank_div.
  pose proof (Z.div_mod sq 8 ltac:(lia)). lia.
Qed.

Lemma square_file_of (file rank : Z) :
  0 <= file < 8 -> square_file (square file rank) = file.
Proof.
  intros H. rewrite square_file_mod. unfold square.
  rewrite Z.add_comm, Z.mod_add by lia. apply Z.mod_small; lia.
Qed.


(** A pixel inside the drawn cell [k] of a row of cells of size [size]
    starting at [offset] is mapped back to [k]. *)
Lemma cell_of_pixel (offset size k x : Z) :
  0 < size -> offset + k * size <= x < offset + (k + 1) * size ->
  (x - offset) / size = k.
Proof.
  intros Hs Hx. symmetry. apply (Z.div_unique_pos _ _ k (x - offset - k * size)); lia.
Qed.

Section GeometryFacts.
Context {R : ChessRules}.


Lemma handle_event_on_square (g : ChessGame.t) (file rank : Z) (pos : Z * Z) :
  0 < SQUARE_SIZE g -> inside_square g file rank pos -> accepts_clicks g ->
  handle_event (MOUSEBUTTONDOWN 1 pos) g =
  match selected_square g with
  | None =>
      match piece_at (board g) (square file rank) with
      | Some piece =>
          if Bool.eqb (color piece) (turn (board g))
          then (Py.Return tt, selected g (square file rank))
          else (Py.Return tt, g)
      | None => (Py.Return tt, g)
      end
  | Some sel =>
      let move := mkMove sel (square file rank) None in
      if move_in move (valid_moves g) then
        match piece_at (board g) sel with
        | None => (Py.Raise (Py.AttributeError
                               "'NoneType' object has no attribute 'piece_type'"), g)
        | Some piece =>
            let move := if click_promotes (board g) piece move
                        then set_promotion move (Some QUEEN) else move in
            match make_move move g with
            | (Py.Return _, g1) => (Py.Return tt, deselected g1)
            | (Py.Raise e, g1) => (Py.Raise e, g1)
            end
        end
      else (Py.Return tt, deselected g)
  end.
Proof.
  intros Hs (Hf & Hr & Hx & Hy) (Hgo & Hmode). destruct pos as [x y]. cbn [fst snd] in *.
  assert (Hfile : (x - BOARD_OFFSET g) / SQUARE_SIZE g = file)
    by (apply cell_of_pixel; lia).
  assert (Hrank : (y - BOARD_OFFSET g) / SQUARE_SIZE g = 7 - rank)
    by (apply cell_of_pixel; lia).
  assert (Henabled : exists b, two_player_mode g = Some b /\
                               (b || Bool.eqb (turn (board g)) (player_color g))%bool = true).
  { destruct Hmode as [Hm|[Hm Ht]].
    - exists true; split; [exact Hm|reflexivity].
    - exists false; split; [exact Hm|]. rewrite Ht. apply eqb_reflx. }
  destruct Henabled as [b [Hb Hen]].
  unfold handle_event, bind, get, get_two_player_mode, ret, raise, modify, selected, deselected.
  cbn -[Z.div Z.sub make_move]. rewrite Hgo, Hb. cbn -[Z.div Z.sub make_move].
  rewrite Hen. replace (SQUARE_SIZE g =? 0) with false by (symmetry; apply Z.eqb_neq; lia).
  rewrite Hfile, Hrank. replace (7 - (7 - rank)) with rank by lia.
  replace ((0 <=? file) && (file <? 8) && (0 <=? rank) && (rank <? 8))%bool with true
    by (symmetry; rewrite !andb_true_iff, !Z.leb_le, !Z.ltb_lt; lia).
  destruct (selected_square g) as [sel|].
  - cbn -[make_move]. destruct (move_in _ (valid_moves g)); [|reflexivity].
    destruct (piece_at (board g) sel) as [piece|]; [|reflexivity].
    destruct (make_move _ g) as [[[]|e] g1]; reflexivity.
  - destruct (piece_at (board g) (square file rank)) as [piece|]; [|reflexivity].
    destruct (Bool.eqb (color piece) (turn (board g))); reflexivity.
Qed.

End GeometryFacts.

Section ClickFacts.
Context {R : ChessRules}.



(** [init_engine_loop] never raises; it stores the first engine that
    launches and reports whether there was one. *)
Lemma init_engine_loop_result (popen_uci : popen_uci_t) (paths : list string)
  (g : ChessGame.t) :
  exists out,
    init_engine_loop popen_uci paths g
    = (Py.Return (match first_engine popen_uci paths with
                  | Some _ => true | None => false end),
       set_stdout out
         (match first_engine popen_uci paths with
          | Some e => set_engine (Some e) g
          | None => g
          end)).
Proof.
  revert g. induction paths as [|path rest IH]; intros g.
  - exists (stdout g). destruct g; reflexivity.
  - cbn [init_engine_loop first_engine].
    destruct (popen_uci path) as [e|e].
    + eexists. unfold bind, modify, print, ret; cbn. reflexivity.
    + unfold bind, print, modify. cbn.
      match goal with
      | |- context [init_engine_loop popen_uci rest ?g1] =>
          destruct (IH g1) as [out ->]
      end.
      exists out. destruct (first_engine popen_uci rest); reflexivity.
Qed.

Lemma init_engine_result (popen_uci : popen_uci_t) (g : ChessGame.t) :
  exists out,
    init_engine popen_uci g
    = (Py.Return tt,
       set_stdout out
         (match first_engine popen_uci stockfish_paths with
          | Some e => set_engine (Some e) g
          | None => g
          end)).
Proof.
  unfold init_engine, bind.
  destruct (init_engine_loop_result popen_uci stockfish_paths g) as [out ->].
  destruct (first_engine popen_uci stockfish_paths).
  - exists out; reflexivity.
  - eexists. unfold print, modify; cbn. reflexivity.
Qed.

End ClickFacts.

Section CallbackFacts.
Context {R : ChessRules}.

Lemma steps_trans (g1 g2 g3 : ChessGame.t) : steps g1 g2 -> steps g2 g3 -> steps g1 g3.
Proof. intros H12 H23; induction H23; [exact H12|econstructor; eassumption]. Qed.

Lemma steps_one (g g' : ChessGame.t) : step g g' -> steps g g'.
Proof. intros H; econstructor; [constructor|exact H]. Qed.

Lemma reachable_steps (g g' : ChessGame.t) : reachable g -> steps g g' -> reachable g'.
Proof. intros Hr H; induction H; [exact Hr|econstructor; eassumption]. Qed.

Lemma steps_mode (g g' : ChessGame.t) :
  steps g g' ->
  (two_player_mode g <> None -> two_player_mode g' <> None) /\
  SQUARE_SIZE g' = SQUARE_SIZE g /\ BOARD_OFFSET g' = BOARD_OFFSET g.
Proof.
  induction 1 as [|g1 g2 _ [IH1 [IH2 IH3]] Hs]; [auto|].
  destruct (step_mode g1 g2 Hs) as [H1 [_ [H2 H3]]].
  split; [auto|split; congruence].
Qed.

Lemma invoke_step (popen_uci : popen_uci_t) (c : Button.Callback) (g : ChessGame.t) :
  step g (snd (Button.invoke popen_uci c g)).
Proof.
  destruct c; cbn [Button.invoke].
  - exact (step_start_vs_computer g popen_uci).
  - exact (step_start_vs_human g).
  - exact (step_restart_game g).
  - exact (step_resign g).
  - exact (step_show_menu g).
Qed.

Lemma start_vs_computer_returns (popen_uci : popen_uci_t) (g : ChessGame.t) :
  fst (start_vs_computer popen_uci g) = Py.Return tt.
Proof.
  unfold start_vs_computer, bind, get, try_except.
  destruct (engine g) as [eng|] eqn:He.
  - unfold modify, ret; cbn. rewrite He. reflexivity.
  - destruct (init_engine_result popen_uci g) as [out ->].
    destruct (first_engine popen_uci stockfish_paths) as [eng|];
      unfold modify, ret, print; cbn; rewrite ?He; reflexivity.
Qed.

Lemma invoke_returns (popen_uci : popen_uci_t) (c : Button.Callback) (g : ChessGame.t) :
  two_player_mode g <> None \/ c <> Button.restart_game ->
  fst (Button.invoke popen_uci c g) = Py.Return tt.
Proof.
  intros H. destruct c; cbn [Button.invoke]; try reflexivity.
  - apply start_vs_computer_returns.
  - destruct H as [H|H]; [|contradiction].
    run_methods. cbn. destruct (two_player_mode g) as [[]|]; [reflexivity..|contradiction].
Qed.

End CallbackFacts.

Section ButtonFacts.
Context {R : ChessRules}.

Lemma button_handle_event_result (popen_uci : popen_uci_t) (b : Button.t) (e : Event)
  (g : ChessGame.t) :
  two_player_mode g <> None \/ Button.callback b <> Button.restart_game ->
  exists b',
    Button.handle_event popen_uci b e g
    = (Py.Return (hits b e, b'),
       if hits b e then snd (Button.invoke popen_uci (Button.callback b) g) else g) /\
    Button.callback b' = Button.callback b.
Proof.
  intros H. destruct e as [button pos|pos|key|]; cbn [Button.handle_event hits].
  - destruct ((button =? 1) && Rect.collidepoint (Button.rect b) pos).
    + exists b. split; [|reflexivity]. unfold bind, ret.
      pose proof (invoke_returns popen_uci (Button.callback b) g H) as Hr.
      destruct (Button.invoke popen_uci (Button.callback b) g) as [[[]|x] g1];
        cbn in Hr; [reflexivity|discriminate Hr].
    + exists b. split; reflexivity.
  - eexists. split; reflexivity.
  - exists b. split; reflexivity.
  - exists b. split; reflexivity.
Qed.

Lemma handle_all_result (popen_uci : popen_uci_t) (bs : list Button.t) (e : Event)
  (g : ChessGame.t) :
  two_player_mode g <> None \/
  Forall (fun b => Button.callback b <> Button.restart_game) bs ->
  exists bs',
    Button.handle_all popen_uci bs e g
    = (Py.Return bs', snd (Button.handle_all popen_uci bs e g)) /\
    map Button.callback bs' = map Button.callback bs /\
    steps g (snd (Button.handle_all popen_uci bs e g)).
Proof.
  revert g. induction bs as [|b rest IH]; intros g H.
  - exists []. repeat split. constructor.
  - cbn [Button.handle_all]. unfold bind at 1 3 5.
    assert (Hb : two_player_mode g <> None \/ Button.callback b <> Button.restart_game).
    { destruct H as [H|H]; [left; exact H|right; inversion H; assumption]. }
    destruct (button_handle_event_result popen_uci b e g Hb) as [b' [-> Hc]].
    set (g1 := if hits b e then snd (Button.invoke popen_uci (Button.callback b) g) else g).
    assert (Hs : steps g g1).
    { subst g1. destruct (hits b e); [apply steps_one, invoke_step|constructor]. }
    assert (H1 : two_player_mode g1 <> None \/
                 Forall (fun b => Button.callback b <> Button.restart_game) rest).
    { destruct H as [H|H]; [left; apply (steps_mode g g1 Hs); exact H
                           |right; inversion H; assumption]. }
    destruct (IH g1 H1) as [bs' [Heq [Hm Hst]]].
    unfold bind. rewrite Heq. cbn [fst snd ret].
    exists (b' :: bs'). split; [reflexivity|]. split.
    + cbn [map]. rewrite Hc, Hm. reflexivity.
    + eapply steps_trans; eassumption.
Qed.

(** With the mode set and the selection matching the position,
    [handle_event] can only fail on squares of size 0. *)
Lemma handle_event_safe (e : Event) (g : ChessGame.t) :
  two_player_mode g <> None -> selection_inv g ->
  fst (handle_event e g) = Py.Return tt \/ SQUARE_SIZE g = 0.
Proof.
  intros Hm Hs.
  destruct (handle_event_outcome e g) as [|x Hx| | |]; try (left; reflexivity).
  destruct Hx as [[_ Hx]|[Hx|[sel [m [Hsel [_ [_ Hp]]]]]]];
    [contradiction|right; exact Hx|exfalso].
  unfold selection_inv in Hs. rewrite Hsel in Hs.
  destruct Hs as [_ [[p [Hp' _]] _]]. congruence.
Qed.

(** Every exception of the engine and of [make_move] is caught. *)
Lemma make_computer_move_returns (play : play_t Board) (g : ChessGame.t) :
  fst (make_computer_move play g) = Py.Return tt.
Proof.
  run_callers. split_callers; try reflexivity.
  all: match goal with
       | H : make_move ?m ?g0 = (Py.Raise _, _) |- _ =>
           pose proof (GameFacts.make_move_returns g0 m) as Rt;
           rewrite H in Rt; discriminate Rt
       end.
Qed.

Lemma computer_turn_returns (t : Z) (play : play_t Board) (g : ChessGame.t) :
  (game_over g = false -> two_player_mode g <> None) ->
  fst (computer_turn t play g) = Py.Return tt.
Proof.
  intros Hm. run_callers. split_callers; try reflexivity.
  all: first
    [ exfalso; apply Hm; reflexivity
    | match goal with
      | H : make_move ?m ?g0 = (Py.Raise _, _) |- _ =>
          pose proof (GameFacts.make_move_returns g0 m) as Rt;
          rewrite H in Rt; discriminate Rt
      end ].
Qed.

End ButtonFacts.

Section RouteFacts.
Context {R : ChessRules}.

Lemma wired_create_buttons (offset : Z) (w : Window.t) :
  wired (Window.create_buttons offset w).
Proof. repeat split. Qed.

Lemma wired_init (display_size : Z * Z) : wired (Window.init display_size).
Proof. destruct display_size. apply wired_create_buttons. Qed.

Lemma wired_toggle_fullscreen (desktop : Z * Z) (offset : Z) (w : Window.t) :
  wired (Window.toggle_fullscreen desktop offset w).
Proof.
  unfold Window.toggle_fullscreen.
  destruct (if Window.fullscreen w then _ else _). apply wired_create_buttons.
Qed.

Lemma place_menu_buttons_callbacks (center_x button_y : Z) (bs : list Button.t) :
  map Button.callback (Window.place_menu_buttons center_x button_y bs)
  = map Button.callback bs.
Proof.
  revert button_y; induction bs as [|b rest IH]; intros button_y; [reflexivity|].
  cbn [Window.place_menu_buttons map]. rewrite IH. reflexivity.
Qed.

Lemma wired_draw_menu (w : Window.t) : wired w -> wired (Window.draw_menu w).
Proof.
  intros [H1 [H2 H3]]. unfold Window.draw_menu, wired. cbn.
  rewrite place_menu_buttons_callbacks. auto.
Qed.

Lemma wired_draw_game_buttons (game_over : bool) (w : Window.t) :
  wired w -> wired (Window.draw_game_buttons game_over w).
Proof.
  intros [H1 [H2 H3]]. unfold Window.draw_game_buttons.
  destruct (Window.game_buttons w) as [|b1 [|b2 [|b3 rest]]] eqn:E;
    try discriminate H2.
  split; [exact H1|split; [|exact H3]]. cbn in H2 |- *.
  destruct game_over; exact H2.
Qed.

Lemma wired_draw_game_over (w : Window.t) : wired w -> wired (Window.draw_game_over w).
Proof.
  intros [H1 [H2 H3]]. unfold Window.draw_game_over.
  split; [exact H1|split; [exact H2|]]. cbn. rewrite map_map, <- H3.
  apply map_ext. intros b; reflexivity.
Qed.

Lemma callbacks_forall (bs : list Button.t) (cs : list Button.Callback) :
  map Button.callback bs = cs -> ~ In Button.restart_game cs ->
  Forall (fun b => Button.callback b <> Button.restart_game) bs.
Proof.
  intros <- H. apply Forall_forall. intros b Hb Hc. apply H.
  rewrite <- Hc. apply in_map. exact Hb.
Qed.

Lemma route_result (popen_uci : popen_uci_t) (e : Event) (w : Window.t)
  (g : ChessGame.t) :
  wired w -> reachable g ->
  exists o g',
    Run.route popen_uci e w g = (o, g') /\ ends_well wired g o /\ steps g g'.
Proof.
  intros [H1 [H2 H3]] Hr. unfold Run.route, bind at 1, get.
  destruct (game_over g) eqn:Hgo.
  - destruct (handle_all_result popen_uci (Window.game_over_buttons w) e g)
      as [bs [Heq [Hm Hs]]].
    { right. apply (callbacks_forall _ _ H3). cbn. intuition discriminate. }
    unfold bind. rewrite Heq. do 2 eexists. split; [reflexivity|]. split; [|exact Hs].
    split; [exact H1|split; [exact H2|]]. cbn. rewrite Hm. exact H3.
  - destruct (String.eqb (state g) "MENU") eqn:Hmenu.
    + destruct (handle_all_result popen_uci (Window.menu_buttons w) e g)
        as [bs [Heq [Hm Hs]]].
      { right. apply (callbacks_forall _ _ H1). cbn. intuition discriminate. }
      unfold bind. rewrite Heq. do 2 eexists. split; [reflexivity|]. split; [|exact Hs].
      split; [|split; [exact H2|exact H3]]. cbn. rewrite Hm. exact H1.
    + destruct (String.eqb (state g) "PLAYING") eqn:Hplay.
      * apply String.eqb_eq in Hplay.
        pose proof (reachable_mode g Hr Hplay) as Hmode.
        destruct (handle_all_result popen_uci (Window.game_buttons w) e g)
          as [bs [Heq [Hm Hs]]]; [left; exact Hmode|].
        unfold bind at 1. rewrite Heq.
        set (g1 := snd (Button.handle_all popen_uci (Window.game_buttons w) e g)) in *.
        assert (Hw : wired (Window.set_game_buttons bs w)).
        { split; [exact H1|split; [|exact H3]]. cbn. rewrite Hm. exact H2. }
        unfold bind at 1, get. destruct (game_over g1).
        -- unfold bind, ret. exists (Py.Return (Window.set_game_buttons bs w)), g1. auto.
        -- destruct (steps_mode g g1 Hs) as [Hm1 [Hz1 _]].
           pose proof (handle_event_safe e g1 (Hm1 Hmode)
                         (reachable_selection g1 (reachable_steps g g1 Hr Hs))) as Hsafe.
           unfold bind, ret.
           pose proof (step_handle_event g1 e) as Hstep.
           destruct (handle_event e g1) as [[[]|x] g2]; cbn [fst snd] in *;
             do 2 eexists; (split; [reflexivity|]);
             (split; [|econstructor; eassumption]).
           ++ exact Hw.
           ++ cbn. destruct Hsafe as [Hsafe|Hsafe]; [discriminate Hsafe|congruence].
      * exists (Py.Return w), g. split; [reflexivity|].
        split; [repeat split; assumption|constructor].
Qed.

End RouteFacts.

Section LoopFacts.
Context {R : ChessRules}.

Lemma run_event_result (popen_uci : popen_uci_t) (desktop : Z * Z) (e : Event)
  (w : Window.t) (g : ChessGame.t) :
  wired w -> reachable g ->
  exists o g',
    Run.run_event popen_uci desktop e w g = (o, g') /\
    ends_well wired_after g o /\ steps g g'.
Proof.
  intros Hw Hr.
  assert (H : forall w0, wired w0 ->
            exists o g',
              bind (Run.route popen_uci e w0) (fun w1 => ret (Run.Continue, w1)) g
              = (o, g') /\ ends_well wired_after g o /\ steps g g').
  { intros w0 Hw0.
    destruct (route_result popen_uci e w0 g Hw0 Hr) as [[w1|x] [g1 [Heq [Hw1 Hs]]]];
      unfold bind, ret; rewrite Heq; do 2 eexists;
      (split; [reflexivity|split; [exact Hw1|exact Hs]]). }
  destruct e as [button pos|pos|key|]; unfold Run.run_event;
    try (unfold bind at 1, get).
  - apply H, Hw.
  - apply H, Hw.
  - apply H. destruct (key =? Run.K_ESCAPE); [apply wired_toggle_fullscreen|exact Hw].
  - exists (Py.Return (Run.Exit, w)), g.
    split; [reflexivity|split; [exact Hw|constructor]].
Qed.

Lemma run_events_result (popen_uci : popen_uci_t) (desktop : Z * Z)
  (events : list Event) (w : Window.t) (g : ChessGame.t) :
  wired w -> reachable g ->
  exists o g',
    Run.run_events popen_uci desktop events w g = (o, g') /\
    ends_well wired_after g o /\ steps g g'.
Proof.
  revert w g. induction events as [|e rest IH]; intros w g Hw Hr.
  - exists (Py.Return (Run.Continue, w)), g.
    split; [reflexivity|split; [exact Hw|constructor]].
  - cbn [Run.run_events]. unfold bind.
    destruct (run_event_result popen_uci desktop e w g Hw Hr)
      as [[[fl w1]|x] [g1 [-> [Hw1 Hs1]]]]; cbn [fst snd] in *.
    + destruct fl.
      * destruct (steps_mode g g1 Hs1) as [_ [Hz1 _]].
        destruct (IH w1 g1 Hw1 (reachable_steps g g1 Hr Hs1))
          as [o [g2 [-> [Hw2 Hs2]]]].
        exists o, g2. split; [reflexivity|]. split; [|eapply steps_trans; eassumption].
        destruct o; [exact Hw2|]. cbn in *. congruence.
      * exists (Py.Return (Run.Exit, w1)), g1. auto.
    + exists (Py.Raise x), g1. auto.
Qed.

(** The rest of a pass does to the game what [run_update] does. *)
Lemma update_and_draw_result (t : Z) (play : play_t Board) (w : Window.t)
  (g : ChessGame.t) :
  wired w -> mode_inv g ->
  exists w',
    Run.update_and_draw t play w g
    = (Py.Return (Run.Continue, w'), snd (run_update t play g)) /\ wired w'.
Proof.
  intros Hw Hm. unfold Run.update_and_draw, run_update, update_animations.
  unfold bind at 1 2 3 6 7 8, get, modify. cbn [fst snd state set_animated_pieces].
  destruct (String.eqb (state g) "MENU").
  - eexists. split; [reflexivity|]. apply wired_draw_menu, Hw.
  - destruct (String.eqb (state g) "PLAYING") eqn:Hp.
    + apply String.eqb_eq in Hp.
      set (g1 := set_animated_pieces (update_pieces (animated_pieces g)) g).
      pose proof (computer_turn_returns t play g1 (fun _ => Hm Hp)) as Hret.
      unfold bind, get, ret.
      destruct (computer_turn t play g1) as [[[]|x] g2]; cbn in Hret; [|discriminate Hret].
      eexists. split; [reflexivity|].
      destruct (game_over g2);
        [apply wired_draw_game_over|]; apply wired_draw_game_buttons, Hw.
    + eexists. split; [reflexivity|exact Hw].
Qed.

Lemma run_iteration_result (i : Run.input) (w : Window.t) (g : ChessGame.t) :
  wired w -> reachable g ->
  exists o g',
    Run.run_iteration i w g = (o, g') /\
    ends_well wired_after g o /\ reachable g' /\
    (SQUARE_SIZE g' = SQUARE_SIZE g /\ BOARD_OFFSET g' = BOARD_OFFSET g).
Proof.
  intros Hw Hr. unfold Run.run_iteration, bind.
  destruct (run_events_result (Run.popen_uci i) (Run.desktop i) (Run.events i) w g
              Hw Hr) as [[[fl w1]|x] [g1 [-> [Hw1 Hs1]]]]; cbn [fst snd] in *.
  all: pose proof (reachable_steps g g1 Hr Hs1) as Hr1.
  all: destruct (steps_mode g g1 Hs1) as [_ [Hz1 Ho1]].
  - destruct fl.
    + destruct (update_and_draw_result (Run.current_time i) (Run.play i) w1 g1 Hw1
                  (reachable_mode g1 Hr1)) as [w2 [-> Hw2]].
      pose proof (step_run_update g1 (Run.current_time i) (Run.play i)) as Hstep.
      do 2 eexists. split; [reflexivity|]. split; [exact Hw2|]. split.
      * econstructor; eassumption.
      * destruct (step_mode _ _ Hstep) as [_ [_ [-> ->]]]. auto.
    + exists (Py.Return (Run.Exit, w1)), g1. auto.
  - exists (Py.Raise x), g1. auto.
Qed.

Lemma looping_reachable (s : ChessGame.t * Window.t) :
  Run.looping s -> reachable (fst s) /\ wired (snd s).
Proof.
  induction 1 as [display_size popen_uci|g w i g' w' _ [IH1 IH2] Heq]; cbn [fst snd] in *.
  - split; [constructor|apply wired_init].
  - destruct (run_iteration_result i w g IH2 IH1) as [o [g2 [Heq2 [Hw [Hr _]]]]].
    rewrite Heq in Heq2. injection Heq2 as <- <-. auto.
Qed.

End LoopFacts.

Section GameOverFacts.
Context {R : ChessRules}.

Lemma game_over_event (popen_uci : popen_uci_t) (desktop : Z * Z) (e : Event)
  (w : Window.t) (g : ChessGame.t) :
  wired w -> game_over g = true ->
  exists r,
    Run.run_event popen_uci desktop e w g = (Py.Return r, g) \/
    Run.run_event popen_uci desktop e w g = (Py.Return r, snd (show_menu g)) /\
    exists pos b, e = MOUSEBUTTONDOWN 1 pos /\ In b (Window.game_over_buttons w) /\
                  Rect.collidepoint (Button.rect b) pos = true.
Proof.
  intros Hw Hgo.
  assert (H : forall w0, wired w0 ->
            exists b, Window.game_over_buttons w0 = [b] /\
            exists w1,
              Run.route popen_uci e w0 g
              = (Py.Return w1, if hits b e then snd (show_menu g) else g)).
  { intros w0 [_ [_ H3]].
    unfold Run.route, bind at 1, get. rewrite Hgo.
    destruct (Window.game_over_buttons w0) as [|b [|b2 rest]]; try discriminate H3.
    injection H3 as Hc. exists b. split; [reflexivity|].
    cbn [Button.handle_all]. unfold bind.
    destruct (button_handle_event_result popen_uci b e g) as [b' [-> _]].
    { right. rewrite Hc. discriminate. }
    rewrite Hc. cbn [Button.invoke]. unfold ret. eexists. reflexivity. }
  destruct e as [button pos|pos|key|]; unfold Run.run_event;
    try (unfold bind at 1, get).
  - destruct (H w Hw) as [b [Hb [w1 Heq]]]. unfold bind, ret. rewrite Heq.
    exists (Run.Continue, w1). cbn [hits].
    destruct (button =? 1) eqn:E1; [|left; reflexivity]. apply Z.eqb_eq in E1. subst.
    destruct (Rect.collidepoint (Button.rect b) pos) eqn:E2; [|left; reflexivity].
    right. split; [reflexivity|]. exists pos, b. rewrite Hb.
    split; [reflexivity|split; [left; reflexivity|exact E2]].
  - destruct (H w Hw) as [b [Hb [w1 Heq]]]. unfold bind, ret. rewrite Heq.
    exists (Run.Continue, w1). left; reflexivity.
  - match goal with
    | |- context [Run.route popen_uci _ ?w0] =>
        assert (Hw0 : wired w0)
          by (destruct (key =? Run.K_ESCAPE); [apply wired_toggle_fullscreen|exact Hw]);
        destruct (H w0 Hw0) as [b [Hb [w1 Heq]]]
    end.
    unfold bind, ret. rewrite Heq. exists (Run.Continue, w1). left; reflexivity.
  - exists (Run.Exit, w). left; reflexivity.
Qed.

Lemma game_over_update (t : Z) (play : play_t Board) (w : Window.t) (g : ChessGame.t) :
  game_over g = true ->
  exists w',
    Run.update_and_draw t play w g
    = (Py.Return (Run.Continue, w'),
       set_animated_pieces (update_pieces (animated_pieces g)) g).
Proof.
  intros Hgo. unfold Run.update_and_draw, update_animations, computer_turn.
  unfold bind, get, modify, ret. cbn [fst snd state game_over set_animated_pieces].
  destruct (String.eqb (state g) "MENU"); [eexists; reflexivity|].
  destruct (String.eqb (state g) "PLAYING"); [|eexists; reflexivity].
  assert (Hg1 : game_over (set_animated_pieces (update_pieces (animated_pieces g)) g)
                = true) by exact Hgo.
  rewrite Hg1. eexists. cbn. rewrite Hgo. reflexivity.
Qed.

Lemma make_move_winner (m : Move) (g : ChessGame.t) :
  winner_inv g -> winner_inv (snd (make_move m g)).
Proof.
  intros H. destruct (move_in m (legal_moves (board g))) eqn:Hl.
  - destruct (GameFacts.make_move_legal g m Hl) as [p [_ ->]]. cbn [snd].
    unfold moved_game, checked, winner_inv in *. cbn.
    destruct (is_checkmate _ || is_stalemate _ || is_insufficient_material _);
      cbn; [discriminate|exact H].
  - rewrite GameFacts.make_move_illegal by exact Hl. exact H.
Qed.

Lemma step_winner (g g' : ChessGame.t) : step g g' -> winner_inv g -> winner_inv g'.
Proof.
  intros H Hinv; destruct H; unfold winner_inv in *.
  - reflexivity.
  - run_methods; unfold stockfish_paths; split_cases; cbn in *; auto.
  - reflexivity.
  - reflexivity.
  - run_methods; split_cases; cbn in *; auto.
  - discriminate.
  - destruct (handle_event_outcome event g) as [|e _|sq p Hs Hp Hc Hm|sel Hs|sel m Hs];
      cbn [snd]; try exact Hinv.
    apply (make_move_winner m g Hinv).
  - run_callers; split_callers; auto; try discriminate;
      try (intros; congruence).
    all: match goal with
         | H : make_move ?m ?g0 = (_, ?g1) |- _ =>
             pose proof (make_move_winner m g0) as W; rewrite H in W;
             unfold winner_inv in W; cbn in W |- *; auto
         end.
Qed.

Lemma reachable_winner (g : ChessGame.t) : reachable g -> winner_inv g.
Proof.
  induction 1 as [display_size popen_uci|g g' _ IH Hstep].
  - destruct display_size; intros _; reflexivity.
  - eapply step_winner; eassumption.
Qed.

End GameOverFacts.

(** * Further properties of the controller *)

Section SelectionProperties.
Context {R : ChessRules}.

(** X4.  In every state the program can reach, the selection matches the
    position: when a square is selected it holds a piece of the side to
    move, [valid_moves] is exactly the list of legal moves that start on
    it, and in a game against the computer it is the human's turn; when no
    square is selected [valid_moves] is empty. *)
Theorem selection_matches_position (g : ChessGame.t) :
  reachable g ->
  match selected_square g with
  | None => valid_moves g = []
  | Some sq =>
      valid_moves g
      = filter (fun move => from_square move =? sq) (legal_moves (board g)) /\
      (exists p, piece_at (board g) sq = Some p /\ color p = turn (board g)) /\
      (two_player_mode g = Some false -> turn (board g) = player_color g)
  end.
Proof. exact (reachable_selection g). Qed.

(** X5.  In every state the program can reach, the position on the board
    comes from the starting position by legal moves only, each pushed as
    [make_move] pushes it.  No sequence of clicks, button presses and
    engine answers puts anything else on the board. *)
Theorem position_comes_from_legal_moves (g : ChessGame.t) :
  reachable g -> played (board g).
Proof.
  induction 1 as [display_size popen_uci|g g' _ IH Hstep].
  - destruct display_size; constructor.
  - exact (board_step_played _ _ (step_board g g' Hstep) IH).
Qed.

(** X6.  In every state the program can reach, a winner is recorded only
    in a game that is over: while [game_over] is false, [winner] is
    [None]. *)
Theorem no_winner_while_game_runs (g : ChessGame.t) :
  reachable g -> game_over g = false -> winner g = Py.None_.
Proof. intros H. exact (reachable_winner g H). Qed.

(** X7.  With no square selected, a left click on any pixel of the square
    at [file], [rank] as the board is drawn, in a running game on a
    human's turn, selects that square together with the legal moves from
    it when the square holds a piece of the side to move; on an empty
    square or a piece of the other side it changes nothing.  It never
    raises. *)
Theorem click_selects_piece_of_side_to_move
  (g : ChessGame.t) (file rank : Z) (pos : Z * Z) :
  0 < SQUARE_SIZE g -> inside_square g file rank pos -> accepts_clicks g ->
  selected_square g = None ->
  handle_event (MOUSEBUTTONDOWN 1 pos) g
  = (Py.Return tt,
     match piece_at (board g) (square file rank) with
     | Some piece =>
         if Bool.eqb (color piece) (turn (board g))
         then selected g (square file rank) else g
     | None => g
     end).
Proof.
  intros Hs Hin Hacc Hsel.
  rewrite (handle_event_on_square g file rank pos Hs Hin Hacc), Hsel.
  destruct (piece_at (board g) (square file rank)) as [piece|]; [|reflexivity].
  destruct (Bool.eqb (color piece) (turn (board g))); reflexivity.
Qed.



(** X17.  On an object on which no game was ever started the attribute
    [two_player_mode] does not exist: unless the game-over flag is set, a
    left click passed to [handle_event] raises [AttributeError] and leaves
    the object as it was, and [restart_game] raises it after having reset
    the board. *)
Theorem click_before_any_start_raises (g : ChessGame.t) (pos : Z * Z) :
  two_player_mode g = None -> game_over g = false ->
  (exists msg,
     handle_event (MOUSEBUTTONDOWN 1 pos) g = (Py.Raise (Py.AttributeError msg), g)) /\
  (exists msg,
     fst (restart_game g) = Py.Raise (Py.AttributeError msg) /\
     board (snd (restart_game g)) = starting).
Proof.
  intros Hm Hgo. split.
  - destruct pos as [x y]. unfold handle_event, bind, get, get_two_player_mode, raise.
    cbn. rewrite Hgo, Hm. eexists. reflexivity.
  - unfold restart_game, bind, get, get_two_player_mode, modify, raise.
    cbn. rewrite Hm. eexists. split; reflexivity.
Qed.

End SelectionProperties.

Section EngineProperties.
Context {R : ChessRules}.

(** X10.  [init_engine] never raises, whatever the launcher does, and
    changes nothing but the printed lines and the engine handle.  The
    handle becomes the engine of the first candidate path that launches,
    in the order /opt/homebrew/bin/stockfish, /usr/local/bin/stockfish,
    stockfish: the engine [__init__] would have found.  When no path
    launches, the handle is left as it was. *)
Theorem init_engine_takes_first_launch (popen_uci : popen_uci_t) (g : ChessGame.t) :
  exists out,
    init_engine popen_uci g
    = (Py.Return tt,
       set_stdout out
         (match first_engine popen_uci stockfish_paths with
          | Some e => set_engine (Some e) g
          | None => g
          end)).
Proof. exact (init_engine_result popen_uci g). Qed.

(** X11.  [make_computer_move] never raises: whatever the engine does,
    answer, fail or die, the call returns.  The position afterwards is the
    one before, or one legal move further. *)
Theorem make_computer_move_never_raises (play : play_t Board) (g : ChessGame.t) :
  fst (make_computer_move play g) = Py.Return tt /\
  (board (snd (make_computer_move play g)) = board g \/
   exists m, move_in m (legal_moves (board g)) = true /\
             board (snd (make_computer_move play g))
             = push (board g) (normalized (board g) m)).
Proof.
  split; [apply make_computer_move_returns|].
  run_callers. split_callers; try (left; reflexivity).
  all: match goal with
       | H : make_move ?m ?g0 = (_, ?g1) |- _ =>
           pose proof (make_move_board m g0) as B; rewrite H in B; cbn [snd] in B;
           destruct (move_in m (legal_moves (board g0))) eqn:Hl;
           [right; exists m; split; [exact Hl|exact B]|left; exact B]
       end.
Qed.


(** X13.  A legal move into a position that is stalemate or has
    insufficient material, and is not checkmate, ends the game as a draw:
    [make_move] sets the game-over flag, records no winner, and the
    game-over screen shows the plain text without a second line. *)
Theorem draw_has_no_winner (g : ChessGame.t) (m : Move) :
  move_in m (legal_moves (board g)) = true ->
  is_checkmate (push (board g) (normalized (board g) m)) = false ->
  (is_stalemate (push (board g) (normalized (board g) m)) ||
   is_insufficient_material (push (board g) (normalized (board g) m))) = true ->
  game_over (snd (make_move m g)) = true /\
  winner (snd (make_move m g)) = Py.None_ /\
  game_over_message (snd (make_move m g)) = ("Game Over", EmptyString).
Proof.
  intros Hl Hc Hd.
  destruct (GameFacts.make_move_legal g m Hl) as [p [_ ->]]. cbn [snd].
  unfold moved_game, checked, game_over_message. cbn.
  rewrite Hc. cbn [orb]. rewrite Hd. cbn. repeat split.
Qed.

End EngineProperties.

Section LoopProperties.
Context {R : ChessRules}.

(** X14.  The method calls of a pass of the main loop (button callbacks,
    [handle_event], the animation update, the computer's turn; pygame's
    rendering is not part of the model) never raise as long as the squares
    of the board have a size other than 0: from a fresh object, after any
    number of passes, for any events, clock reading, engine behaviour and
    desktop size, the next pass returns (it goes on or ends the program on
    QUIT).  In particular [two_player_mode] is never read before a game
    was started, and no move is made from an empty square. *)
Theorem pass_never_raises (g : ChessGame.t) (w : Window.t) (i : Run.input) :
  Run.looping (g, w) -> SQUARE_SIZE g <> 0 ->
  exists r g', Run.run_iteration i w g = (Py.Return r, g') /\ SQUARE_SIZE g' <> 0.
Proof.
  intros Hl Hz. destruct (looping_reachable _ Hl) as [Hr Hw]. cbn [fst snd] in *.
  destruct (run_iteration_result i w g Hw Hr) as [[r|x] [g' [Heq [Hend [_ [Hz' _]]]]]].
  - exists r, g'. split; [exact Heq|]. rewrite Hz'. exact Hz.
  - contradiction.
Qed.

(** X15.  Once the game is over, all the loop still lets through is the
    "Back to Menu" button.  For a window whose buttons call the methods
    that [create_buttons] gave them, an event either leaves the game
    untouched or is a left click inside a game-over button and calls
    [show_menu]; clicks on the board and on the sidebar buttons (Restart
    Game, Main Menu) do nothing.  The rest of the pass only advances the
    animations: the engine is not asked. *)
Theorem game_over_leaves_only_back_to_menu
  (popen_uci : popen_uci_t) (desktop : Z * Z) (e : Event) (t : Z)
  (play : play_t Board) (w : Window.t) (g : ChessGame.t) :
  wired w -> game_over g = true ->
  (exists r,
     Run.run_event popen_uci desktop e w g = (Py.Return r, g) \/
     Run.run_event popen_uci desktop e w g = (Py.Return r, snd (show_menu g)) /\
     exists pos b, e = MOUSEBUTTONDOWN 1 pos /\ In b (Window.game_over_buttons w) /\
                   Rect.collidepoint (Button.rect b) pos = true) /\
  (exists w',
     Run.update_and_draw t play w g
     = (Py.Return (Run.Continue, w'),
        set_animated_pieces (update_pieces (animated_pieces g)) g)).
Proof.
  intros Hw Hgo. split.
  - exact (game_over_event popen_uci desktop e w g Hw Hgo).
  - exact (game_over_update t play w g Hgo).
Qed.


End LoopProperties.

Section ComputerProperties.
Context {R : ChessRules}.

(** X18.  With an engine at hand, or one that can be launched,
    [start_vs_computer] starts a game against the computer without
    raising: state PLAYING, the starting position, White for the human,
    nothing selected, no animation, game not over, no request in flight.
    A handle that is there is kept and nothing is launched or printed;
    otherwise the handle is the first engine that launches. *)
Theorem start_vs_computer_starts_game
  (popen_uci : popen_uci_t) (g : ChessGame.t) (eng : SimpleEngine) :
  engine g = Some eng \/
  engine g = None /\ first_engine popen_uci stockfish_paths = Some eng ->
  fst (start_vs_computer popen_uci g) = Py.Return tt /\
  state (snd (start_vs_computer popen_uci g)) = "PLAYING" /\
  board (snd (start_vs_computer popen_uci g)) = starting /\
  two_player_mode (snd (start_vs_computer popen_uci g)) = Some false /\
  player_color (snd (start_vs_computer popen_uci g)) = WHITE /\
  selected_square (snd (start_vs_computer popen_uci g)) = None /\
  valid_moves (snd (start_vs_computer popen_uci g)) = [] /\
  animated_pieces (snd (start_vs_computer popen_uci g)) = [] /\
  game_over (snd (start_vs_computer popen_uci g)) = false /\
  winner (snd (start_vs_computer popen_uci g)) = Py.None_ /\
  computer_move_scheduled (snd (start_vs_computer popen_uci g)) = false /\
  engine (snd (start_vs_computer popen_uci g)) = Some eng /\
  (engine g = Some eng -> stdout (snd (start_vs_computer popen_uci g)) = stdout g).
Proof.
  intros [He|[He Hf]]; unfold start_vs_computer, bind, get, try_except.
  - rewrite He. unfold modify, ret; cbn. rewrite He. cbn. repeat split; auto.
  - rewrite He. destruct (init_engine_result popen_uci g) as [out ->].
    rewrite Hf. unfold modify, ret, print; cbn. repeat split.
    intros H; discriminate H.
Qed.

(** X19.  The computer's reply.  In a running game against the computer,
    on the computer's turn, with no animation left after this pass's
    update and no request in flight, the update pass asks the engine; when
    the engine answers with a legal move, the pass returns with that move
    pushed on the board, one animation started, the request cleared, and
    the turn back with the human. *)
Theorem computer_reply_is_played
  (g : ChessGame.t) (t : Z) (play : play_t Board) (eng : SimpleEngine) (mv : Move) :
  state g = "PLAYING" -> game_over g = false ->
  two_player_mode g = Some false -> turn (board g) <> player_color g ->
  update_pieces (animated_pieces g) = [] -> computer_move_scheduled g = false ->
  engine g = Some eng -> play eng (board g) = Py.Return (Some mv) ->
  Move_truthy mv = true -> move_in mv (legal_moves (board g)) = true ->
  fst (run_update t play g) = Py.Return tt /\
  board (snd (run_update t play g)) = push (board g) (normalized (board g) mv) /\
  turn (board (snd (run_update t play g))) = player_color g /\
  List.length (animated_pieces (snd (run_update t play g))) = 1%nat /\
  computer_move_scheduled (snd (run_update t play g)) = false /\
  computer_thinking_start (snd (run_update t play g)) = 0.
Proof.
  intros Hs Hgo Hm Ht Ha Hc He Hp Htr Hl.
  apply eqb_false_iff in Ht.
  set (g1 := set_computer_thinking_start t
               (set_computer_move_scheduled true
                  (set_animated_pieces [] g))).
  assert (Hl1 : move_in mv (legal_moves (board g1)) = true) by exact Hl.
  destruct (GameFacts.make_move_legal g1 mv Hl1) as [p [_ Hmv]].
  unfold run_update, update_animations, computer_turn, make_computer_move,
    get_two_player_mode, try_except, call, bind, get, modify, ret.
  cbn -[make_move String.eqb]. rewrite Hs. cbn -[make_move].
  repeat (first [rewrite Ha | rewrite Hgo | rewrite Hm | rewrite Ht
                | rewrite Hc | rewrite He | rewrite Hp | rewrite Htr];
          cbn -[make_move]).
  match goal with
  | |- context [make_move mv ?x] => change x with g1
  end.
  rewrite Hmv. cbn [fst snd].
  unfold moved_game, checked. cbn.
  destruct (is_checkmate _ || is_stalemate _ || is_insufficient_material _); cbn;
    rewrite push_turn; (repeat split);
    destruct (turn (board g)), (player_color g); try reflexivity; discriminate Ht.
Qed.

(** X20.  The computer waits for the animation.  In a game that is in
    state PLAYING, as long as a piece is still in flight after this pass's
    update, the update pass does nothing else: the engine is not asked and
    no timeout is taken. *)
Theorem computer_waits_for_animation
  (g : ChessGame.t) (t : Z) (play : play_t Board) :
  state g = "PLAYING" -> two_player_mode g <> None ->
  update_pieces (animated_pieces g) <> [] ->
  run_update t play g
  = (Py.Return tt, set_animated_pieces (update_pieces (animated_pieces g)) g).
Proof.
  intros Hs Hm Ha.
  unfold run_update, update_animations, computer_turn, get_two_player_mode,
    bind, get, modify, ret.
  cbn -[String.eqb]. rewrite Hs. cbn.
  destruct (game_over g); cbn; [reflexivity|].
  destruct (two_player_mode g) as [b|]; cbn; [|contradiction].
  destruct (update_pieces (animated_pieces g)); cbn; [contradiction|].
  destruct b, (Bool.eqb (turn (board g)) (player_color g)); reflexivity.
Qed.

End ComputerProperties.

Section GeometryProperties.
Context {R : ChessRules}.

(** X21.  The board keeps the geometry computed by [__init__]: whatever
    a pass of the loop does, the ESC key included, which resizes the
    window and rescales the buttons, [SQUARE_SIZE] and [BOARD_OFFSET] stay
    as they were. *)
Theorem pass_keeps_board_geometry (g : ChessGame.t) (w : Window.t) (i : Run.input) :
  Run.looping (g, w) ->
  SQUARE_SIZE (snd (Run.run_iteration i w g)) = SQUARE_SIZE g /\
  BOARD_OFFSET (snd (Run.run_iteration i w g)) = BOARD_OFFSET g.
Proof.
  intros Hl. destruct (looping_reachable _ Hl) as [Hr Hw]. cbn [fst snd] in *.
  destruct (run_iteration_result i w g Hw Hr) as [o [g' [-> [_ [_ H]]]]].
  exact H.
Qed.

End GeometryProperties.

(** ** The further properties at concrete games *)

Lemma reachable_vs_friend : reachable Scenario.vs_friend.
Proof.
  apply (reachable_step (R := MiniChess.rules) Scenario.fresh).
  - exact (reachable_init (R := MiniChess.rules) (1200, 800) Scenario.popen_ok).
  - exact (step_start_vs_human (R := MiniChess.rules) Scenario.fresh).
Qed.

Lemma reachable_clicks (squares : list Square) (g : ChessGame.t (R := MiniChess.rules)) :
  reachable g -> reachable (Games.clicks squares g).
Proof.
  revert g. induction squares as [|sq rest IH]; intros g H; [exact H|].
  apply IH. eapply reachable_step; [exact H|].
  exact (step_handle_event g (Scenario.click sq)).
Qed.

Lemma reachable_e2_selected : reachable Games.e2_selected.
Proof. apply reachable_clicks, reachable_vs_friend. Qed.

Lemma reachable_a7_selected : reachable Games.a7_selected.
Proof. apply reachable_clicks, reachable_vs_friend. Qed.

(** X4 after a click on e2 in a new game: e2 is selected, and the two
    pawn moves from it are the valid moves. *)
Lemma selection_matches_position_witness :
  selected_square Games.e2_selected = Some Scenario.E2 /\
  valid_moves Games.e2_selected
  = filter (fun move => from_square move =? Scenario.E2)
           (legal_moves (board Games.e2_selected)).
Proof.
  pose proof (selection_matches_position (R := MiniChess.rules) Games.e2_selected
                reachable_e2_selected) as H.
  split; [reflexivity|]. exact (proj1 H).
Defined.

(** X5 at the game with a request in flight: its position comes from the
    starting position. *)
Lemma position_comes_from_legal_moves_witness :
  played (board Scenario.waiting).
Proof.
  exact (position_comes_from_legal_moves (R := MiniChess.rules) Scenario.waiting
           reachable_waiting).
Defined.

(** X6 at the game with the pawn on a7 selected. *)
Lemma no_winner_while_game_runs_witness :
  game_over Games.a7_selected = false /\ winner Games.a7_selected = Py.None_.
Proof.
  split; [vm_compute; reflexivity|].
  apply (no_winner_while_game_runs (R := MiniChess.rules) Games.a7_selected
           reachable_a7_selected).
  vm_compute; reflexivity.
Defined.

(** X7 in a new game between friends: a click at pixel (400, 580), inside
    the square e2, selects e2. *)
Lemma click_selects_piece_of_side_to_move_witness :
  handle_event (MOUSEBUTTONDOWN 1 (400, 580)) Scenario.vs_friend
  = (Py.Return tt, selected Scenario.vs_friend Scenario.E2).
Proof.
  rewrite (click_selects_piece_of_side_to_move (R := MiniChess.rules)
             Scenario.vs_friend 4 1 (400, 580)).
  - reflexivity.
  - vm_compute; reflexivity.
  - repeat split; vm_compute; discriminate || reflexivity.
  - split; [reflexivity|left; reflexivity].
  - reflexivity.
Defined.




(** X13 with the king taking the last piece but the kings. *)
Lemma draw_has_no_winner_witness :
  game_over (snd (make_move (mkMove Games.A1 Games.B2 None) Games.knight_game)) = true /\
  winner (snd (make_move (mkMove Games.A1 Games.B2 None) Games.knight_game))
  = Py.None_ /\
  game_over_message (snd (make_move (mkMove Games.A1 Games.B2 None) Games.knight_game))
  = ("Game Over", EmptyString).
Proof.
  apply (draw_has_no_winner (R := MiniChess.rules) Games.knight_game
           (mkMove Games.A1 Games.B2 None));
    vm_compute; reflexivity.
Defined.

(** X14 at the first pass on a fresh object, with a click and the ESC key
    in the queue. *)
Lemma pass_never_raises_witness :
  exists r g',
    Run.run_iteration Games.pass Games.window Scenario.fresh = (Py.Return r, g') /\
    SQUARE_SIZE g' <> 0.
Proof.
  apply (pass_never_raises (R := MiniChess.rules) Scenario.fresh Games.window Games.pass).
  - exact (Run.looping_init (R := MiniChess.rules) (1200, 800) Scenario.popen_ok).
  - vm_compute; discriminate.
Defined.

(** X15 at a resigned game: a click inside the sidebar's Restart Game
    button. *)
Lemma game_over_leaves_only_back_to_menu_witness :
  (exists r,
     Run.run_event (R := MiniChess.rules) Scenario.popen_ok (1920, 1080) Games.click_restart Games.window
       Games.resigned = (Py.Return r, Games.resigned) \/
     Run.run_event (R := MiniChess.rules) Scenario.popen_ok (1920, 1080) Games.click_restart Games.window
       Games.resigned = (Py.Return r, snd (show_menu Games.resigned)) /\
     exists pos b, Games.click_restart = MOUSEBUTTONDOWN 1 pos /\
                   In b (Window.game_over_buttons Games.window) /\
                   Rect.collidepoint (Button.rect b) pos = true) /\
  (exists w',
     Run.update_and_draw (R := MiniChess.rules) 5000 Scenario.play_no_move Games.window Games.resigned
     = (Py.Return (Run.Continue, w'),
        set_animated_pieces (update_pieces (animated_pieces Games.resigned))
          Games.resigned)).
Proof.
  apply (game_over_leaves_only_back_to_menu (R := MiniChess.rules)).
  - exact (wired_init (1200, 800)).
  - reflexivity.
Defined.


(** X17 at the fresh object. *)
Lemma click_before_any_start_raises_witness :
  (exists msg,
     handle_event (MOUSEBUTTONDOWN 1 (400, 580)) Scenario.fresh
     = (Py.Raise (Py.AttributeError msg), Scenario.fresh)) /\
  (exists msg,
     fst (restart_game Scenario.fresh) = Py.Raise (Py.AttributeError msg) /\
     board (snd (restart_game Scenario.fresh)) = starting).
Proof.
  apply (click_before_any_start_raises (R := MiniChess.rules) Scenario.fresh (400, 580));
    reflexivity.
Defined.

(** X18 on a fresh object that found no engine, with Stockfish installed
    since: the engine is launched and the game starts. *)
Lemma start_vs_computer_starts_game_witness :
  state (snd (start_vs_computer Scenario.popen_ok Scenario.fresh_without_engine))
  = "PLAYING" /\
  two_player_mode (snd (start_vs_computer Scenario.popen_ok Scenario.fresh_without_engine))
  = Some false /\
  engine (snd (start_vs_computer Scenario.popen_ok Scenario.fresh_without_engine))
  = Some (mkEngine "/opt/homebrew/bin/stockfish").
Proof.
  destruct (start_vs_computer_starts_game (R := MiniChess.rules) Scenario.popen_ok
              Scenario.fresh_without_engine (mkEngine "/opt/homebrew/bin/stockfish"))
    as (_ & Hs & _ & Hm & _ & _ & _ & _ & _ & _ & _ & He & _).
  - right; split; reflexivity.
  - split; [exact Hs|split; [exact Hm|exact He]].
Defined.

(** X19 after 1. e4, on the pass in which the pawn lands, with an engine
    that answers e7-e5. *)
Lemma computer_reply_is_played_witness :
  board (snd (run_update (R := MiniChess.rules) 6000 Games.play_e7e5 Games.landing))
  = push (board Games.landing) (mkMove Scenario.E7 Scenario.E5 None) /\
  turn (board (snd (run_update (R := MiniChess.rules) 6000 Games.play_e7e5
                      Games.landing))) = WHITE.
Proof.
  destruct (computer_reply_is_played (R := MiniChess.rules) Games.landing 6000
              Games.play_e7e5 (mkEngine "/opt/homebrew/bin/stockfish")
              (mkMove Scenario.E7 Scenario.E5 None))
    as (_ & Hb & Ht & _); try (vm_compute; reflexivity).
  - vm_compute; discriminate.
  - split; [rewrite Hb; vm_compute; reflexivity|rewrite Ht; vm_compute; reflexivity].
Defined.

(** X20 right after 1. e4 against the computer: the pawn is in flight. *)
Lemma computer_waits_for_animation_witness :
  run_update (R := MiniChess.rules) 5000 Scenario.play_no_move Scenario.after_e4
  = (Py.Return tt,
     set_animated_pieces (update_pieces (animated_pieces Scenario.after_e4))
       Scenario.after_e4).
Proof.
  apply (computer_waits_for_animation (R := MiniChess.rules) Scenario.after_e4 5000
           Scenario.play_no_move).
  - reflexivity.
  - vm_compute; discriminate.
  - vm_compute; discriminate.
Defined.

(** X21 with the ESC key pressed twice on a 1920x1080 desktop: the window
    is 1920 wide afterwards, the squares still measure 87. *)
Lemma pass_keeps_board_geometry_witness :
  SQUARE_SIZE (snd (Run.run_iteration Games.pass_esc Games.window Scenario.fresh)) = 87 /\
  BOARD_OFFSET (snd (Run.run_iteration Games.pass_esc Games.window Scenario.fresh)) = 50 /\
  match fst (Run.run_iteration Games.pass_esc Games.window Scenario.fresh) with
  | Py.Return (_, w) => Window.width w = 1920
  | Py.Raise _ => False
  end.
Proof.
  destruct (pass_keeps_board_geometry (R := MiniChess.rules) Scenario.fresh
              Games.window Games.pass_esc) as [Hs Ho].
  - exact (Run.looping_init (R := MiniChess.rules) (1200, 800) Scenario.popen_ok).
  - split; [rewrite Hs; vm_compute; reflexivity|].
    split; [rewrite Ho; vm_compute; reflexivity|vm_compute; reflexivity].
Defined.
